(** Shallow embedding of the admin chat front end of TJH-Support:
    the chat context provider ([AdminChatContext], [loadMessages],
    [sendMessage], [createConversation], [deleteConversation]) and the
    parts of [ChatPanel] that select files and drive the typing animation. *)

From Stdlib Require Import List String Ascii ZArith Bool Arith Lia.
Import ListNotations.
Open Scope Z_scope.

(* ------------------------------------------------------------------ *)
(** * Data model ([/* TYPES */] in the context file) *)

Inductive Author := Admin | Agent.

Definition author_eqb (a b : Author) : bool :=
  match a, b with
  | Admin, Admin | Agent, Agent => true
  | _, _ => false
  end.

Module Conv.
(** [type Conversation] *)
Record t := mk {
  id : Z;
  customer_id : Z;
  title : string;
  external_thread_id : string;
  created_at : string
}.
End Conv.

Module Msg.
(** [type Message] *)
Record t := mk {
  id : Z;
  conversation_id : Z;
  author : Author;
  text : string;
  created_at : string
}.
End Msg.

(** A browser [File] as far as the code inspects it. *)
Record File := mkFile { name : string; type : string; size : Z }.

(** Body of the POST to [/chat/conversations/{id}/messages]. *)
Inductive SendBody :=
| JsonBody (message : string)
| FormBody (message : string) (files : list File).

(** HTTP requests issued by the provider, in the order they are sent. *)
Inductive Request :=
| GetMessages (conversationId : Z)
| PostMessage (conversationId : Z) (body : SendBody)
| PostConversation (customer_id : Z) (title : string)
| DeleteConversation (conversationId : Z).

(** What [fetch] yields for one request: a rejected promise (network
    error), or a response with its status and the result of [res.json()]
    ([None] when the body does not parse, i.e. [res.json()] throws). *)
Inductive FetchOutcome (A : Type) :=
| NetworkError
| HttpResponse (status : Z) (json : option A).
Arguments NetworkError {A}.
Arguments HttpResponse {A} status json.

(** [res.ok] *)
Definition res_ok (status : Z) : bool := (200 <=? status) && (status <? 300).

(* ------------------------------------------------------------------ *)
(** * JavaScript helpers *)

(** Whitespace removed by [String.prototype.trim], restricted to the
    ASCII range that [string] can hold: tab, LF, VT, FF, CR and space. *)
Definition is_js_ws (c : ascii) : bool :=
  match nat_of_ascii c with
  | 9 | 10 | 11 | 12 | 13 | 32 => true
  | _ => false
  end%nat.

Fixpoint trim_start (s : string) : string :=
  match s with
  | EmptyString => EmptyString
  | String c r => if is_js_ws c then trim_start r else s
  end.

Fixpoint trim_end (s : string) : string :=
  match s with
  | EmptyString => EmptyString
  | String c r =>
      let r' := trim_end r in
      if is_js_ws c && String.eqb r' EmptyString then EmptyString
      else String c r'
  end.

(** [s.trim()] *)
Definition trim (s : string) : string := trim_end (trim_start s).

(** JavaScript truthiness of a string: [!s] holds exactly for [""]. *)
Definition str_falsy (s : string) : bool := String.eqb s EmptyString.

(** [a || b] on strings. *)
Definition str_or (a b : string) : string := if str_falsy a then b else a.

(* ------------------------------------------------------------------ *)
(** * Provider state and the effect monad *)

(** The React state of [AdminChatProvider] together with the observable
    effects: requests sent, timers awaited ([setTimeout] delays) and lines
    written with [console.error]. *)
Record Provider := mkProvider {
  showChatPanel : bool;
  customerId : option Z;
  conversations : list Conv.t;
  selectedConversationId : option Z;
  messages : list Msg.t;
  isSending : bool;
  isLoadingMessages : bool;
  requests : list Request;
  timers : list Z;
  errors : list string
}.

Definition set_showChatPanel (b : bool) (s : Provider) : Provider :=
  mkProvider b (customerId s) (conversations s) (selectedConversationId s)
    (messages s) (isSending s) (isLoadingMessages s) (requests s) (timers s)
    (errors s).

Definition set_conversations (cs : list Conv.t) (s : Provider) : Provider :=
  mkProvider (showChatPanel s) (customerId s) cs (selectedConversationId s)
    (messages s) (isSending s) (isLoadingMessages s) (requests s) (timers s)
    (errors s).

Definition set_selected (o : option Z) (s : Provider) : Provider :=
  mkProvider (showChatPanel s) (customerId s) (conversations s) o
    (messages s) (isSending s) (isLoadingMessages s) (requests s) (timers s)
    (errors s).

Definition set_messages (ms : list Msg.t) (s : Provider) : Provider :=
  mkProvider (showChatPanel s) (customerId s) (conversations s)
    (selectedConversationId s) ms (isSending s) (isLoadingMessages s)
    (requests s) (timers s) (errors s).

Definition set_isSending (b : bool) (s : Provider) : Provider :=
  mkProvider (showChatPanel s) (customerId s) (conversations s)
    (selectedConversationId s) (messages s) b (isLoadingMessages s)
    (requests s) (timers s) (errors s).

Definition set_isLoading (b : bool) (s : Provider) : Provider :=
  mkProvider (showChatPanel s) (customerId s) (conversations s)
    (selectedConversationId s) (messages s) (isSending s) b
    (requests s) (timers s) (errors s).

Definition add_request (r : Request) (s : Provider) : Provider :=
  mkProvider (showChatPanel s) (customerId s) (conversations s)
    (selectedConversationId s) (messages s) (isSending s)
    (isLoadingMessages s) (requests s ++ [r]) (timers s) (errors s).

Definition add_timer (d : Z) (s : Provider) : Provider :=
  mkProvider (showChatPanel s) (customerId s) (conversations s)
    (selectedConversationId s) (messages s) (isSending s)
    (isLoadingMessages s) (requests s) (timers s ++ [d]) (errors s).

Definition add_error (e : string) (s : Provider) : Provider :=
  mkProvider (showChatPanel s) (customerId s) (conversations s)
    (selectedConversationId s) (messages s) (isSending s)
    (isLoadingMessages s) (requests s) (timers s) (errors s ++ [e]).

(** Completion of an async function: it returns a value or throws. *)
Inductive Completion (A : Type) :=
| Ok (a : A)
| Throw (e : string).
Arguments Ok {A} a.
Arguments Throw {A} e.

(** An async step of the provider: state in, completion and state out. *)
Definition M (A : Type) : Type := Provider -> Completion A * Provider.

Definition ret {A} (a : A) : M A := fun s => (Ok a, s).
Definition throw {A} (e : string) : M A := fun s => (Throw e, s).
Definition modify (f : Provider -> Provider) : M unit := fun s => (Ok tt, f s).
Definition bind {A B} (m : M A) (k : A -> M B) : M B :=
  fun s => match m s with
           | (Ok a, s1) => k a s1
           | (Throw e, s1) => (Throw e, s1)
           end.

Notation "x <- m ;; k" := (bind m (fun x => k))
  (at level 61, m at next level, right associativity).
Notation "m ;; k" := (bind m (fun _ => k)) (at level 61, right associativity).

(** [try { body } catch (err) { handler } finally { fin }] *)
Definition try_catch_finally {A} (body : M A) (handler : string -> M A)
    (fin : M unit) : M A :=
  fun s =>
    let '(r1, s1) := body s in
    let '(r2, s2) := match r1 with
                     | Ok a => (Ok a, s1)
                     | Throw e => handler e s1
                     end in
    let '(rf, s3) := fin s2 in
    match rf with
    | Ok _ => (r2, s3)
    | Throw e => (Throw e, s3)
    end.

(** [try { body } catch (err) { handler }] *)
Definition try_catch {A} (body : M A) (handler : string -> M A) : M A :=
  try_catch_finally body handler (ret tt).

(** [await new Promise((resolve) => setTimeout(resolve, d))] *)
Definition wait (d : Z) : M unit := modify (add_timer d).

(** [await fetch(...)]: the request is sent; a network error rejects. *)
Definition fetch {A} (r : Request) (o : FetchOutcome A) : M (Z * option A) :=
  modify (add_request r) ;;
  match o with
  | NetworkError => throw "TypeError: Failed to fetch"
  | HttpResponse st js => ret (st, js)
  end.

(** [await res.json()] *)
Definition res_json {A} (js : option A) : M A :=
  match js with
  | Some a => ret a
  | None => throw "SyntaxError: Unexpected token"
  end.

(* ------------------------------------------------------------------ *)
(** * [loadMessages] *)

(** How one iteration of the [for] loop leaves it. *)
Inductive LoopCtl := Continue | Return.

(** The [try]/[catch]/[finally] of iteration [attempt] of [loadMessages].
    [requestAnimationFrame(() => setMessages(data))] is taken as the
    immediate update it schedules. *)
Definition load_attempt (conversationId : Z) (retries attempt : nat)
    (delay : Z) (o : FetchOutcome (list Msg.t)) : M LoopCtl :=
  try_catch_finally
    (r <- fetch (GetMessages conversationId) o ;;
     let '(status, js) := r in
     if negb (res_ok status) then
       if Nat.ltb attempt (retries - 1) then
         wait (delay * 2 ^ Z.of_nat attempt) ;; ret Continue
       else
         modify (add_error "Failed to load messages") ;;
         modify (set_messages []) ;;
         ret Return
     else
       data <- res_json js ;;
       modify (set_messages data) ;;
       ret Return)
    (fun _ =>
       if Nat.ltb attempt (retries - 1) then
         wait (delay * 2 ^ Z.of_nat attempt) ;; ret Continue
       else
         modify (add_error "Error loading messages") ;;
         modify (set_messages []) ;;
         ret Continue)
    (modify (set_isLoading false)).

(** [for (let attempt = 0; attempt < retries; attempt++)]; [fuel] bounds
    the number of iterations left. *)
Fixpoint load_loop (fuel attempt : nat) (conversationId : Z) (retries : nat)
    (delay : Z) (answers : nat -> FetchOutcome (list Msg.t)) : M unit :=
  match fuel with
  | O => ret tt
  | S fuel' =>
      if Nat.ltb attempt retries then
        c <- load_attempt conversationId retries attempt delay (answers attempt) ;;
        match c with
        | Return => ret tt
        | Continue => load_loop fuel' (S attempt) conversationId retries delay answers
        end
      else ret tt
  end.

(** [loadMessages(conversationId, retries = 3, delay = 300)]; [answers i]
    is what the backend yields to the fetch of attempt [i]. *)
Definition loadMessages (conversationId : Z) (retries : nat) (delay : Z)
    (answers : nat -> FetchOutcome (list Msg.t)) : M unit :=
  modify (set_isLoading true) ;;
  load_loop retries 0 conversationId retries delay answers.

(** A fetch that fails transiently: it rejects or answers non-2xx. *)
Definition failing {A} (o : FetchOutcome A) : bool :=
  match o with
  | NetworkError => true
  | HttpResponse st _ => negb (res_ok st)
  end.

(* ------------------------------------------------------------------ *)
(** * [sendMessage] *)

(** The JSON value [res.json()] yields for a send: [null], or an object
    whose [messages] field is an array ([Some]) or absent or not an array
    ([None]). *)
Inductive SendResponse :=
| RNull
| RObject (messages : option (list Msg.t)).

(** [data.messages && Array.isArray(data.messages) && data.messages.length > 0];
    reading a field of [null] throws a [TypeError]. *)
Definition response_messages (data : SendResponse) : M (option (list Msg.t)) :=
  match data with
  | RNull => throw "TypeError: Cannot read properties of null"
  | RObject (Some ((_ :: _) as ms)) => ret (Some ms)
  | RObject _ => ret None
  end.

(** [!files || files.length === 0] *)
Definition no_files (files : option (list File)) : bool :=
  match files with
  | None => true
  | Some fs => Nat.eqb (List.length fs) 0
  end.

(** [prev.filter((m) => m.id !== -1 || m.text !== text.trim())] *)
Definition drop_pending_on_error (text : string) (prev : list Msg.t) : list Msg.t :=
  filter (fun m => negb (Msg.id m =? -1) || negb (String.eqb (Msg.text m) (trim text)))
    prev.

(** [prev.filter((m) => !(m.id === -1 && m.text === text.trim()))] *)
Definition drop_pending (text : string) (prev : list Msg.t) : list Msg.t :=
  filter (fun m => negb ((Msg.id m =? -1) && String.eqb (Msg.text m) (trim text)))
    prev.

Definition update_messages (f : list Msg.t -> list Msg.t) : M unit :=
  modify (fun s => set_messages (f (messages s)) s).

(** [sendMessage(conversationId, text, files?)]. [now] is the
    [new Date().toISOString()] of the placeholder, [answer] what the POST
    yields and [reload] what the fetches of the fallback [loadMessages]
    yield. [console.error(..., await res.text())] is taken to read the
    body without failing. *)
Definition sendMessage (conversationId : Z) (text : string)
    (files : option (list File)) (now : string)
    (answer : FetchOutcome SendResponse)
    (reload : nat -> FetchOutcome (list Msg.t)) : M unit :=
  if str_falsy (trim text) && no_files files then ret tt
  else
    let displayText := str_or (trim text) "[Files attached]" in
    let tempAdminMessage := Msg.mk (-1) conversationId Admin displayText now in
    update_messages (fun prev => prev ++ [tempAdminMessage]) ;;
    modify (set_isSending true) ;;
    try_catch_finally
      (r <- (match files with
             | Some fs =>
                 if negb (Nat.eqb (List.length fs) 0) then
                   fetch (PostMessage conversationId
                            (FormBody (str_or (trim text) "") fs)) answer
                 else fetch (PostMessage conversationId (JsonBody text)) answer
             | None => fetch (PostMessage conversationId (JsonBody text)) answer
             end) ;;
       let '(status, js) := r in
       if negb (res_ok status) then
         update_messages (drop_pending_on_error text) ;;
         modify (add_error "Failed to send chat message")
       else
         data <- res_json js ;;
         ms <- response_messages data ;;
         match ms with
         | Some ms => update_messages (fun prev => drop_pending text prev ++ ms)
         | None =>
             wait 100 ;;
             loadMessages conversationId 3 300 reload
         end)
      (fun _ =>
         update_messages (drop_pending text) ;;
         modify (add_error "Error talking to chat backend"))
      (modify (set_isSending false)).

(* ------------------------------------------------------------------ *)
(** * Selection changes and loads in flight *)

(** What the user and the network do, one at a time on the UI thread:
    [setSelectedConversationId(o)] (which, through the effect on
    [selectedConversationId], starts [loadMessages] or clears the list),
    and the completion of an in-flight [loadMessages] for a conversation.
    A load's writes to the state are taken at its completion; its only
    write to [messages] is at its end. *)
Inductive Event :=
| SelectConversation (o : option Z)
| LoadCompletes (conversationId : Z).

(** The provider with the conversations whose loads are in flight. *)
Record Session := mkSession { provider : Provider; inflight : list Z }.

Fixpoint remove_first (x : Z) (l : list Z) : list Z :=
  match l with
  | [] => []
  | y :: r => if y =? x then r else y :: remove_first x r
  end.

Definition option_Z_eqb (a b : option Z) : bool :=
  match a, b with
  | Some x, Some y => x =? y
  | None, None => true
  | _, _ => false
  end.

(** [backend c] is what the fetches of a load of conversation [c] yield. *)
Definition session_step (backend : Z -> nat -> FetchOutcome (list Msg.t))
    (ss : Session) (ev : Event) : Session :=
  let s := provider ss in
  match ev with
  | SelectConversation o =>
      if option_Z_eqb o (selectedConversationId s) then ss
      else
        let s1 := set_selected o s in
        match o with
        | Some c => mkSession s1 (inflight ss ++ [c])
        | None => mkSession (set_messages [] s1) (inflight ss)
        end
  | LoadCompletes c =>
      if existsb (Z.eqb c) (inflight ss) then
        mkSession (snd (loadMessages c 3 300 (backend c) s))
          (remove_first c (inflight ss))
      else ss
  end.

Definition run_session backend (ss : Session) (evs : list Event) : Session :=
  fold_left (session_step backend) evs ss.

(* ------------------------------------------------------------------ *)
(** * [deleteConversation] and [createConversation] *)

(** [deleteConversation(conversationId)]; [selectedConversationId] is the
    value the function closes over, i.e. the one when it is called. *)
Definition deleteConversation (conversationId : Z) (answer : FetchOutcome unit)
    : M unit :=
  fun s0 =>
    let selected := selectedConversationId s0 in
    try_catch
      (r <- fetch (DeleteConversation conversationId) answer ;;
       let '(status, _) := r in
       if negb (res_ok status) then
         modify (add_error "Failed to delete conversation")
       else
         modify (fun s =>
           let updated :=
             filter (fun c => negb (Conv.id c =? conversationId)) (conversations s) in
           let s1 :=
             if option_Z_eqb selected (Some conversationId) then
               match updated with
               | c :: _ => set_selected (Some (Conv.id c)) s
               | [] => set_showChatPanel false (set_selected None s)
               end
             else s in
           set_conversations updated s1) ;;
         if option_Z_eqb selected (Some conversationId) then
           modify (set_messages [])
         else ret tt)
      (fun _ => modify (add_error "Error deleting conversation"))
      s0.

(** The effect on [[selectedConversationId]] after a render where the
    selection was [before]: it loads the new selection or clears the list
    ([loadMessages(...).catch(console.error)]). *)
Definition selection_effect (before : option Z)
    (backend : Z -> nat -> FetchOutcome (list Msg.t)) : M unit :=
  fun s =>
    if option_Z_eqb before (selectedConversationId s) then (Ok tt, s)
    else
      match selectedConversationId s with
      | Some c =>
          try_catch (loadMessages c 3 300 (backend c))
            (fun e => modify (add_error e)) s
      | None => (Ok tt, set_messages [] s)
      end.

(** Decimal digits of a natural number, as template literals print it. *)
Fixpoint digits_of (fuel n : nat) (acc : string) : string :=
  match fuel with
  | O => acc
  | S f =>
      let acc' := String (ascii_of_nat (48 + n mod 10)) acc in
      if Nat.ltb n 10 then acc' else digits_of f (n / 10) acc'
  end.

Definition nat_to_string (n : nat) : string := digits_of (S n) n EmptyString.

(** [title?.trim() || `Conversation ${conversations.length + 1}`] *)
Definition conversation_title (title : option string) (n : nat) : string :=
  let default := ("Conversation " ++ nat_to_string (n + 1))%string in
  match title with
  | Some t => str_or (trim t) default
  | None => default
  end.

(** [createConversation(title?)]; [answer] is what the POST yields and
    [reload] what the fetches of the following [loadMessages] yield.
    [if (!customerId)] also refuses the customer id [0]. *)
Definition createConversation (title : option string)
    (answer : FetchOutcome Conv.t) (reload : nat -> FetchOutcome (list Msg.t))
    : M (option Conv.t) :=
  fun s0 =>
    match customerId s0 with
    | None | Some 0 =>
        (modify (add_error "Cannot create conversation without a customer") ;;
         ret None) s0
    | Some cust =>
        let trimmedTitle := conversation_title title (List.length (conversations s0)) in
        try_catch
          (r <- fetch (PostConversation cust trimmedTitle) answer ;;
           let '(status, js) := r in
           if negb (res_ok status) then
             modify (add_error "Failed to create conversation") ;; ret None
           else
             newConversation <- res_json js ;;
             modify (fun s => set_conversations (newConversation :: conversations s) s) ;;
             modify (set_selected (Some (Conv.id newConversation))) ;;
             modify (set_showChatPanel true) ;;
             loadMessages (Conv.id newConversation) 3 300 reload ;;
             ret (Some newConversation))
          (fun _ => modify (add_error "Error creating conversation") ;; ret None)
          s0
    end.

(* ------------------------------------------------------------------ *)
(** * [ChatPanel]: the typing animation *)

(** [typingMessage] *)
Record Typing := mkTyping { typing_id : Z; fullText : string; displayedText : string }.


(** [messages.filter((m) => m.author === "agent").sort((a, b) => b.id - a.id)[0]]:
    the agent message of largest id, the first of them on ties (the sort
    is stable). *)
Fixpoint last_agent_from (best : option Msg.t) (ms : list Msg.t) : option Msg.t :=
  match ms with
  | [] => best
  | m :: r =>
      if author_eqb (Msg.author m) Agent then
        match best with
        | Some b => if Msg.id b <? Msg.id m then last_agent_from (Some m) r
                    else last_agent_from best r
        | None => last_agent_from (Some m) r
        end
      else last_agent_from best r
  end.

Definition last_agent_message (ms : list Msg.t) : option Msg.t :=
  last_agent_from None ms.


(* ------------------------------------------------------------------ *)
(** * [ChatPanel]: [handleFileSelect] *)

Definition SUPPORTED_FILE_TYPES : list string :=
  [ "application/pdf";
    "application/vnd.openxmlformats-officedocument.wordprocessingml.document";
    "application/msword";
    "text/plain";
    "text/markdown";
    "image/jpeg";
    "image/png";
    "image/gif";
    "image/webp" ]%string.

Definition MAX_FILE_SIZE : Z := 10 * 1024 * 1024.

(** [s.endsWith(suffix)] *)
Definition ends_with (s suffix : string) : bool :=
  let n := String.length s in
  let k := String.length suffix in
  Nat.leb k n && String.eqb (substring (n - k) k s) suffix.

Module Upload.
(** [type UploadedFile]; [preview] is filled later by a [FileReader]. *)
Record t := mk { id : string; file : File; preview : option string }.
End Upload.

Definition isValidType (f : File) : bool :=
  existsb (String.eqb (type f)) SUPPORTED_FILE_TYPES
  || ends_with (name f) ".docx" || ends_with (name f) ".doc"
  || ends_with (name f) ".txt" || ends_with (name f) ".md".

(** The [forEach] over the selected files: [(newFiles, errors)].
    [fresh i] is the id [`${Date.now()}-${Math.random()}`] drawn for the
    [i]-th file. *)
Fixpoint collect_files (fresh : nat -> string) (i : nat) (fs : list File)
    : list Upload.t * list string :=
  match fs with
  | [] => ([], [])
  | f :: r =>
      let '(newFiles, errs) := collect_files fresh (S i) r in
      if negb (isValidType f) then
        (newFiles,
         (name f ++ ": Unsupported file type. Supported: PDF, DOCX, DOC, TXT, MD, or images (JPEG, PNG, GIF, WEBP)")%string
         :: errs)
      else if MAX_FILE_SIZE <? size f then
        (newFiles, (name f ++ ": File too large. Maximum size is 10MB.")%string :: errs)
      else (Upload.mk (fresh i) f None :: newFiles, errs)
  end.

(** [handleFileSelect]: the new upload list and the error lines shown with
    [alert]. *)
Definition handleFileSelect (files : option (list File)) (fresh : nat -> string)
    (uploadedFiles : list Upload.t) : list Upload.t * list string :=
  match files with
  | None | Some [] => (uploadedFiles, [])
  | Some fs =>
      let '(newFiles, errs) := collect_files fresh 0 fs in
      (if Nat.ltb 0 (List.length newFiles) then uploadedFiles ++ newFiles
       else uploadedFiles,
       errs)
  end.

(** The acceptance rule as the file-selection claim words it: at most
    10 MB, and a PDF, DOC/DOCX, plain text, markdown or JPEG/PNG/GIF/WEBP
    MIME type, or a name ending in .docx, .doc, .txt or .md. *)
Definition claimed_mime_types : list string :=
  [ "application/pdf";
    "application/msword";
    "application/vnd.openxmlformats-officedocument.wordprocessingml.document";
    "text/plain"; "text/markdown";
    "image/jpeg"; "image/png"; "image/gif"; "image/webp" ]%string.

Definition accepted_as_claimed (f : File) : bool :=
  (size f <=? 10 * 1024 * 1024)
  && (existsb (String.eqb (type f)) claimed_mime_types
      || existsb (ends_with (name f)) [".docx"; ".doc"; ".txt"; ".md"]%string).

(* ------------------------------------------------------------------ *)
(** * [ChatPanel]: the typing animation timer *)

(** ["\n"] *)
Definition newline : string := String (ascii_of_nat 10) EmptyString.

(** [/[.,!?;:]/.test(c)] on a one-character string. *)
Definition is_punctuation (c : ascii) : bool :=
  existsb (Ascii.eqb c) ["."; ","; "!"; "?"; ";"; ":"]%char.

(** [i !== -1 && i < k] for an [indexOf] result [i] ([None] is [-1]). *)
Definition index_below (i : option nat) (k : nat) : option nat :=
  match i with
  | Some j => if Nat.ltb j k then Some j else None
  | None => None
  end.

(** One run of the typing animation effect for a non-null [typingMessage]:
    the value the [setTimeout] callback passes to [setTypingMessage]
    ([None] for [null]) and the delay of that timer. *)
Definition typing_tick (t : Typing) : option Typing * Z :=
  let fullText := fullText t in
  let currentLength := String.length (displayedText t) in
  if Nat.ltb currentLength (String.length fullText) then
    let remainingText :=
      substring currentLength (String.length fullText - currentLength) fullText in
    let nextSpaceIndex := index 0 " " remainingText in
    let nextNewlineIndex := index 0 newline remainingText in
    let charsToAdd :=
      match index_below nextSpaceIndex 5 with
      | Some i => S i
      | None =>
          match index_below nextNewlineIndex 3 with
          | Some i => S i
          | None => 1%nat
          end
      end in
    let isPunctuation :=
      match get 0 remainingText with
      | Some c => is_punctuation c
      | None => false
      end in
    let delay := if isPunctuation then 80 else 25 in
    (Some (mkTyping (typing_id t) fullText
             (substring 0 (currentLength + charsToAdd) fullText)), delay)
  else (None, 200).

(** The animation left to itself: each timer fires and the effect runs
    again on the new [typingMessage], at most [fuel] times, with no other
    render in between ([commit] below has the other effect's cleanup). *)
Fixpoint animate (fuel : nat) (t : Typing) : option Typing :=
  match fuel with
  | O => Some t
  | S f =>
      match fst (typing_tick t) with
      | Some t' => animate f t'
      | None => None
      end
  end.

(* ------------------------------------------------------------------ *)
(** * [ChatPanel]: the two animation effects and their cleanups *)
















(* ------------------------------------------------------------------ *)
(** * [ChatPanel]: file labels and [handleSubmit] *)

(** [s.startsWith(prefix)] *)
Definition starts_with (s prefix : string) : bool := String.prefix prefix s.

(** [getFileTypeLabel(file)] *)
Definition getFileTypeLabel (f : File) : string :=
  if String.eqb (type f) "application/pdf" then "PDF"
  else if String.eqb (type f)
            "application/vnd.openxmlformats-officedocument.wordprocessingml.document"
          || ends_with (name f) ".docx" then "DOCX"
  else if String.eqb (type f) "application/msword" || ends_with (name f) ".doc"
  then "DOC"
  else if String.eqb (type f) "text/plain" || ends_with (name f) ".txt" then "TXT"
  else if String.eqb (type f) "text/markdown" || ends_with (name f) ".md" then "MD"
  else if starts_with (type f) "image/" then "IMAGE"
  else "FILE".

(** [`[File: ${f.file.name} (${formatFileSize(f.file.size)})]`];
    [formatFileSize] goes through [Number.prototype.toFixed] and is a
    parameter. *)
Definition file_line (formatFileSize : Z -> string) (u : Upload.t) : string :=
  ("[File: " ++ name (Upload.file u) ++ " ("
   ++ formatFileSize (size (Upload.file u)) ++ ")]")%string.

(** The [messageText] of [handleSubmit] for the trimmed input [text]. *)
Definition submit_text (formatFileSize : Z -> string) (text : string)
    (uploadedFiles : list Upload.t) : string :=
  if Nat.ltb 0 (List.length uploadedFiles) then
    let fileList := concat newline (map (file_line formatFileSize) uploadedFiles) in
    if str_falsy text then
      ("Uploaded " ++ nat_to_string (List.length uploadedFiles) ++ " file(s):"
       ++ newline ++ fileList)%string
    else (text ++ newline ++ newline ++ fileList)%string
  else text.

(** [handleSubmit()]: the provider effects of [sendMessage] and the
    panel's [input] and [uploadedFiles] afterwards. [now], [answer] and
    [reload] are passed on to [sendMessage]. *)
Definition handleSubmit (formatFileSize : Z -> string) (conversation : option Conv.t)
    (input : string) (uploadedFiles : list Upload.t) (now : string)
    (answer : FetchOutcome SendResponse) (reload : nat -> FetchOutcome (list Msg.t))
    : M (string * list Upload.t) :=
  let text := trim input in
  match conversation with
  | None => ret (input, uploadedFiles)
  | Some c =>
      if str_falsy text && Nat.eqb (List.length uploadedFiles) 0 then
        ret (input, uploadedFiles)
      else
        let messageText := submit_text formatFileSize text uploadedFiles in
        sendMessage (Conv.id c) messageText None now answer reload ;;
        ret (EmptyString, [])
  end.

(* ------------------------------------------------------------------ *)
(** * [AdminDashboardPage] and [AdminLayoutContent] *)

(** [handleAddConversation()]; [prompt] is the result of [window.prompt]
    ([None] for [null], a cancelled dialog). *)
Definition handleAddConversation (prompt : option string)
    (answer : FetchOutcome Conv.t) (reload : nat -> FetchOutcome (list Msg.t))
    : M unit :=
  fun s0 =>
    let defaultTitle :=
      ("Conversation " ++ nat_to_string (List.length (conversations s0) + 1))%string in
    match prompt with
    | None => ret tt s0
    | Some input =>
        let sanitized := trim input in
        (createConversation (Some (str_or sanitized defaultTitle)) answer reload ;;
         ret tt) s0
    end.

(** The [messages] prop of [ChatPanel]:
    [messages.filter((m) => m.conversation_id === selectedConversationId)]. *)
Definition panel_messages (selected : option Z) (ms : list Msg.t) : list Msg.t :=
  filter (fun m => option_Z_eqb (Some (Msg.conversation_id m)) selected) ms.

(* ------------------------------------------------------------------ *)
(** * Sample data *)

Definition empty_provider : Provider :=
  mkProvider false None [] None [] false false [] [] [].

Definition msg101 : Msg.t := Msg.mk 101 5 Admin "hello" "2026-01-01T00:00:01Z".
Definition msg102 : Msg.t := Msg.mk 102 5 Agent "Hi, how can I help?" "2026-01-01T00:00:02Z".
Definition cv_pdf : File := mkFile "cv.pdf" "application/pdf" 1000.
Definition no_reload : nat -> FetchOutcome (list Msg.t) := fun _ => NetworkError.

(** Backend of the switching scenario: conversation [c] holds one message
    of id [c]. *)
Definition two_conversations_backend : Z -> nat -> FetchOutcome (list Msg.t) :=
  fun c _ => HttpResponse 200 (Some [Msg.mk c c Agent "reply" "t"]).



(* ================================================================== *)
(** * Properties *)

Ltac run_m :=
  unfold load_attempt, try_catch_finally, fetch, bind, modify, throw, ret,
    res_json, wait; cbn beta iota zeta.

Lemma load_attempt_retry cid retries attempt delay o s :
  failing o = true -> Nat.ltb attempt (retries - 1) = true ->
  load_attempt cid retries attempt delay o s =
  (Ok Continue, set_isLoading false
     (add_timer (delay * 2 ^ Z.of_nat attempt) (add_request (GetMessages cid) s))).
Proof.
  intros F L. destruct o as [|st js]; simpl in F; run_m.
  - rewrite L. reflexivity.
  - rewrite F, L. reflexivity.
Qed.

Lemma load_attempt_last cid retries attempt delay o s :
  failing o = true -> Nat.ltb attempt (retries - 1) = false ->
  exists c e, load_attempt cid retries attempt delay o s =
  (Ok c, set_isLoading false
     (set_messages [] (add_error e (add_request (GetMessages cid) s)))).
Proof.
  intros F L. destruct o as [|st js]; simpl in F; run_m.
  - rewrite L. eauto.
  - rewrite F, L. eauto.
Qed.

(** C4: when the three attempts of [loadMessages] all fail (a rejected
    fetch or a non-2xx status), it sends three GETs, waits [delay * 2^0]
    and [delay * 2^1] between them, logs one error, sets the list to []
    and completes normally: nothing is thrown to the caller. *)
Theorem loadMessages_gives_up_after_three_attempts (conversationId delay : Z)
    (answers : nat -> FetchOutcome (list Msg.t)) (s : Provider)
    (Hfail : forall i, (i < 3)%nat -> failing (answers i) = true) :
  exists s', loadMessages conversationId 3 delay answers s = (Ok tt, s') /\
    messages s' = [] /\
    requests s' = requests s ++ repeat (GetMessages conversationId) 3 /\
    timers s' = timers s ++ [delay * 2 ^ 0; delay * 2 ^ 1] /\
    List.length (errors s') = S (List.length (errors s)).
Proof.
  unfold loadMessages, bind at 1, modify at 1.
  cbn [load_loop Nat.ltb Nat.leb].
  unfold bind at 1.
  rewrite load_attempt_retry by first [reflexivity | apply Hfail; lia].
  cbn [load_loop Nat.ltb Nat.leb].
  unfold bind at 1.
  rewrite load_attempt_retry by first [reflexivity | apply Hfail; lia].
  cbn [load_loop Nat.ltb Nat.leb].
  unfold bind at 1.
  destruct (load_attempt_last conversationId 3 2 delay (answers 2%nat)
    (set_isLoading false (add_timer (delay * 2 ^ Z.of_nat 1)
      (add_request (GetMessages conversationId)
        (set_isLoading false (add_timer (delay * 2 ^ Z.of_nat 0)
          (add_request (GetMessages conversationId) (set_isLoading true s))))))))
    as (c & e & E); [apply Hfail; lia | reflexivity |].
  rewrite E. destruct c; cbn.
  all: eexists; split; [reflexivity|].
  all: cbn; rewrite <- !app_assoc; repeat split; try reflexivity.
  all: rewrite length_app; cbn; lia.
Qed.

(** One iteration either sets the list to a value fixed by the answer or,
    when it waits for a retry, leaves it alone. *)
Lemma load_attempt_shape cid retries attempt delay o :
  exists c (k : option (list Msg.t)), forall s,
    fst (load_attempt cid retries attempt delay o s) = Ok c /\
    messages (snd (load_attempt cid retries attempt delay o s)) =
      match k with Some l => l | None => messages s end /\
    (k = None -> c = Continue /\ Nat.ltb attempt (retries - 1) = true).
Proof.
  destruct (Nat.ltb attempt (retries - 1)) eqn:L.
  - destruct o as [|st [js|]].
    + exists Continue, None. intros s. run_m. rewrite L. cbn. auto.
    + destruct (res_ok st) eqn:R.
      * exists Return, (Some js). intros s. run_m. rewrite R. cbn.
        split; [reflexivity | split; [reflexivity | discriminate]].
      * exists Continue, None. intros s. run_m. rewrite R, L. cbn. auto.
    + destruct (res_ok st) eqn:R.
      * exists Continue, None. intros s. run_m. rewrite R, L. cbn. auto.
      * exists Continue, None. intros s. run_m. rewrite R, L. cbn. auto.
  - destruct o as [|st [js|]].
    + exists Continue, (Some []). intros s. run_m. rewrite L. cbn.
      split; [reflexivity | split; [reflexivity | discriminate]].
    + destruct (res_ok st) eqn:R.
      * exists Return, (Some js). intros s. run_m. rewrite R. cbn.
        split; [reflexivity | split; [reflexivity | discriminate]].
      * exists Return, (Some []). intros s. run_m. rewrite R, L. cbn.
        split; [reflexivity | split; [reflexivity | discriminate]].
    + destruct (res_ok st) eqn:R.
      * exists Continue, (Some []). intros s. run_m. rewrite R, L. cbn.
        split; [reflexivity | split; [reflexivity | discriminate]].
      * exists Return, (Some []). intros s. run_m. rewrite R, L. cbn.
        split; [reflexivity | split; [reflexivity | discriminate]].
Qed.

(** The list a load leaves does not depend on the list it started from. *)
Lemma load_loop_messages cid retries delay answers fuel :
  forall attempt s1 s2, (fuel + attempt = retries)%nat -> (attempt < retries)%nat ->
  messages (snd (load_loop fuel attempt cid retries delay answers s1)) =
  messages (snd (load_loop fuel attempt cid retries delay answers s2)).
Proof.
  induction fuel as [|f IH]; intros attempt s1 s2 Hf Ha; [lia|].
  cbn [load_loop]. replace (Nat.ltb attempt retries) with true
    by (symmetry; apply Nat.ltb_lt; exact Ha).
  destruct (load_attempt_shape cid retries attempt delay (answers attempt))
    as (c & k & H).
  destruct (H s1) as (F1 & M1 & K), (H s2) as (F2 & M2 & _).
  unfold bind.
  destruct (load_attempt cid retries attempt delay (answers attempt) s1) as [r1 t1].
  destruct (load_attempt cid retries attempt delay (answers attempt) s2) as [r2 t2].
  cbn in F1, F2, M1, M2. subst r1 r2.
  destruct c.
  - destruct (Nat.eq_dec (S attempt) retries) as [E|E].
    + destruct k as [l|].
      * assert (f = 0%nat) by lia. subst f. cbn. congruence.
      * destruct (K eq_refl) as [_ L]. apply Nat.ltb_lt in L. lia.
    + apply IH; lia.
  - destruct k as [l|].
    + cbn. congruence.
    + destruct (K eq_refl) as [D _]. discriminate.
Qed.


(** C7: running [loadMessages] a second time for the same conversation,
    with the backend answering as it did the first time, leaves the same
    list as the first run: each completed load replaces the list whole. *)
Theorem loadMessages_idempotent (conversationId : Z) (retries : nat)
    (delay : Z) (answers : nat -> FetchOutcome (list Msg.t)) (s : Provider) :
  let s1 := snd (loadMessages conversationId retries delay answers s) in
  messages (snd (loadMessages conversationId retries delay answers s1)) =
  messages s1.
Proof.
  cbv zeta. unfold loadMessages, bind at 1 3, modify at 1 3. cbn iota beta.
  destruct retries as [|r].
  - reflexivity.
  - apply load_loop_messages; lia.
Qed.

(** C1 (divergence): a send with an attachment and blank text shows the
    placeholder "[Files attached]" but removes entries whose text is
    [text.trim()] = "": after a successful answer with messages 101 and 102
    the placeholder is still in the list, in front of them. *)
Theorem sendMessage_files_only_success_keeps_placeholder :
  let '(r, s') :=
    sendMessage 5 "" (Some [cv_pdf]) "now"
      (HttpResponse 200 (Some (RObject (Some [msg101; msg102])))) no_reload
      empty_provider in
  r = Ok tt /\
  messages s' = [Msg.mk (-1) 5 Admin "[Files attached]" "now"; msg101; msg102].
Proof. vm_compute. split; reflexivity. Qed.

(** C2 (divergence): the same send answered with status 500 (or failing
    with a network error) leaves the placeholder in a list that was empty
    before the call. *)
Theorem sendMessage_files_only_failure_keeps_placeholder :
  let pending := Msg.mk (-1) 5 Admin "[Files attached]" "now" in
  messages (snd (sendMessage 5 "" (Some [cv_pdf]) "now" (HttpResponse 500 None)
                   no_reload empty_provider)) = [pending] /\
  messages (snd (sendMessage 5 "" (Some [cv_pdf]) "now" NetworkError
                   no_reload empty_provider)) = [pending] /\
  messages empty_provider = [].
Proof. vm_compute. repeat split; reflexivity. Qed.

(** C6: [sendMessage] with text that trims to "" and no files returns at
    once: no request, and the state is left as it was. *)
Theorem sendMessage_blank_without_files_is_noop (conversationId : Z)
    (text : string) (files : option (list File)) (now : string)
    (answer : FetchOutcome SendResponse)
    (reload : nat -> FetchOutcome (list Msg.t)) (s : Provider)
    (Hblank : trim text = EmptyString)
    (Hnofiles : files = None \/ files = Some []) :
  sendMessage conversationId text files now answer reload s = (Ok tt, s).
Proof.
  unfold sendMessage, str_falsy. rewrite Hblank.
  destruct Hnofiles as [-> | ->]; reflexivity.
Qed.

Lemma sendMessage_blank_without_files_is_noop_witness :
  trim "   " = EmptyString /\
  sendMessage 5 "   " None "now" NetworkError no_reload empty_provider =
    (Ok tt, empty_provider).
Proof.
  split; [reflexivity|].
  apply (sendMessage_blank_without_files_is_noop 5 "   " None "now"
           NetworkError no_reload empty_provider); [reflexivity | left; reflexivity].
Defined.


(** C3 (counterexample): select 1, switch to 2, the load of 2 completes,
    then the late load of 1 completes: 2 is selected but the list shows
    conversation 1's data. *)
Theorem stale_load_overwrites_selected_conversation :
  let ss := run_session two_conversations_backend (mkSession empty_provider [])
              [SelectConversation (Some 1); SelectConversation (Some 2);
               LoadCompletes 2; LoadCompletes 1] in
  selectedConversationId (provider ss) = Some 2 /\
  messages (provider ss) = [Msg.mk 1 1 Agent "reply" "t"] /\
  messages (provider ss) <> [Msg.mk 2 2 Agent "reply" "t"].
Proof. vm_compute. split; [reflexivity | split; [reflexivity | discriminate]]. Qed.

(** C3 (amended): whatever is selected, the list after an in-flight load
    of [c] completes is that load's result: the last load to complete
    decides the visible list. *)
Theorem last_completed_load_decides_messages
    (backend : Z -> nat -> FetchOutcome (list Msg.t))
    (ss : Session) (evs : list Event) (c : Z)
    (Hinflight : In c (inflight (run_session backend ss evs))) :
  messages (provider (run_session backend ss (evs ++ [LoadCompletes c]))) =
  messages (snd (loadMessages c 3 300 (backend c) empty_provider)).
Proof.
  unfold run_session. rewrite fold_left_app. cbn [fold_left].
  fold (run_session backend ss evs).
  unfold session_step at 1.
  replace (existsb (Z.eqb c) (inflight (run_session backend ss evs))) with true.
  - cbn [provider]. unfold loadMessages, bind at 1, modify at 1.
    cbn iota beta. apply load_loop_messages; lia.
  - symmetry. apply existsb_exists. exists c. split; [exact Hinflight | apply Z.eqb_refl].
Qed.

Lemma last_completed_load_decides_messages_witness :
  In 1 (inflight (run_session two_conversations_backend (mkSession empty_provider [])
          [SelectConversation (Some 1); SelectConversation (Some 2); LoadCompletes 2])) /\
  messages (provider (run_session two_conversations_backend (mkSession empty_provider [])
    ([SelectConversation (Some 1); SelectConversation (Some 2); LoadCompletes 2]
     ++ [LoadCompletes 1]))) =
  messages (snd (loadMessages 1 3 300 (two_conversations_backend 1) empty_provider)).
Proof.
  split; [vm_compute; left; reflexivity|].
  apply last_completed_load_decides_messages. vm_compute. left. reflexivity.
Defined.

Lemma filter_head_satisfies {A} (f : A -> bool) (l r : list A) (x : A) :
  filter f l = x :: r -> f x = true.
Proof.
  intros E. assert (In x (filter f l)) as H by (rewrite E; left; reflexivity).
  apply filter_In in H. tauto.
Qed.

(** A [try]/[catch] whose handler only logs keeps the list of its body. *)
Lemma try_catch_log_messages' (body : M unit) (s : Provider) :
  messages (snd (try_catch body (fun e => modify (add_error e)) s)) =
  messages (snd (body s)).
Proof.
  unfold try_catch, try_catch_finally, bind, modify, ret.
  destruct (body s) as [[a|e] s1]; reflexivity.
Qed.

(** C5: after a successful DELETE the conversation is gone from the local
    list; if it was the selected one, the first remaining conversation is
    selected and the list is cleared, and the selection effect then loads
    that conversation's messages; if none remains, nothing is selected. *)
Theorem deleteConversation_success (conversationId status : Z)
    (js : option unit) (backend : Z -> nat -> FetchOutcome (list Msg.t))
    (s : Provider) (Hok : res_ok status = true) :
  let s1 := snd (deleteConversation conversationId (HttpResponse status js) s) in
  let remaining :=
    filter (fun c => negb (Conv.id c =? conversationId)) (conversations s) in
  conversations s1 = remaining /\
  (selectedConversationId s = Some conversationId ->
   match remaining with
   | c :: _ =>
       selectedConversationId s1 = Some (Conv.id c) /\
       messages s1 = [] /\
       messages (snd (selection_effect (Some conversationId) backend s1)) =
       messages (snd (loadMessages (Conv.id c) 3 300 (backend (Conv.id c)) s1))
   | [] => selectedConversationId s1 = None
   end).
Proof.
  cbv zeta.
  unfold deleteConversation, try_catch, try_catch_finally, fetch, bind, modify, ret.
  cbn beta iota. rewrite Hok. cbn.
  destruct (option_Z_eqb (selectedConversationId s) (Some conversationId)) eqn:Esel.
  - destruct (filter (fun c => negb (Conv.id c =? conversationId)) (conversations s))
      as [|c r] eqn:Erem; cbn.
    + split; [reflexivity | intros _; reflexivity].
    + split; [reflexivity|]. intros _.
      split; [reflexivity | split; [reflexivity|]].
      unfold selection_effect.
      cbn [option_Z_eqb selectedConversationId set_messages set_conversations
           set_selected add_request].
      apply filter_head_satisfies in Erem. apply negb_true_iff in Erem.
      rewrite Z.eqb_sym, Erem.
      rewrite try_catch_log_messages'. reflexivity.
  - cbn. split; [reflexivity|]. intros Hs. rewrite Hs in Esel.
    cbn in Esel. rewrite Z.eqb_refl in Esel. discriminate.
Qed.

Lemma deleteConversation_success_witness :
  res_ok 204 = true /\
  let s := set_selected (Some 1)
             (set_conversations [Conv.mk 1 7 "a" "t1" "c"; Conv.mk 2 7 "b" "t2" "c"]
                empty_provider) in
  let s1 := snd (deleteConversation 1 (HttpResponse 204 None) s) in
  let remaining := filter (fun c => negb (Conv.id c =? 1)) (conversations s) in
  conversations s1 = remaining /\
  (selectedConversationId s = Some 1 ->
   match remaining with
   | c :: _ =>
       selectedConversationId s1 = Some (Conv.id c) /\
       messages s1 = [] /\
       messages (snd (selection_effect (Some 1) two_conversations_backend s1)) =
       messages (snd (loadMessages (Conv.id c) 3 300
                        (two_conversations_backend (Conv.id c)) s1))
   | [] => selectedConversationId s1 = None
   end).
Proof.
  split; [reflexivity|].
  apply (deleteConversation_success 1 204 None two_conversations_backend). reflexivity.
Defined.

(** One iteration of [loadMessages] completes normally, sends one GET and
    touches neither the conversations nor the selection. *)
Lemma load_attempt_frame cid retries attempt delay o s :
  (exists c, fst (load_attempt cid retries attempt delay o s) = Ok c) /\
  conversations (snd (load_attempt cid retries attempt delay o s)) = conversations s /\
  selectedConversationId (snd (load_attempt cid retries attempt delay o s)) =
    selectedConversationId s /\
  requests (snd (load_attempt cid retries attempt delay o s)) =
    requests s ++ [GetMessages cid].
Proof.
  destruct o as [|st [js|]]; run_m;
    try destruct (res_ok st); destruct (Nat.ltb attempt (retries - 1));
    cbn; eauto.
Qed.

Lemma load_loop_frame cid retries delay answers fuel :
  forall attempt s,
  fst (load_loop fuel attempt cid retries delay answers s) = Ok tt /\
  conversations (snd (load_loop fuel attempt cid retries delay answers s)) =
    conversations s /\
  selectedConversationId (snd (load_loop fuel attempt cid retries delay answers s)) =
    selectedConversationId s /\
  exists l, requests (snd (load_loop fuel attempt cid retries delay answers s)) =
    requests s ++ l.
Proof.
  induction fuel as [|f IH]; intros attempt s.
  - cbn. repeat split; auto. exists []. rewrite app_nil_r. reflexivity.
  - cbn [load_loop]. destruct (Nat.ltb attempt retries).
    2: { cbn. repeat split; auto. exists []. rewrite app_nil_r. reflexivity. }
    destruct (load_attempt_frame cid retries attempt delay (answers attempt) s)
      as ([c Hc] & Hconv & Hsel & Hreq).
    unfold bind.
    destruct (load_attempt cid retries attempt delay (answers attempt) s) as [r1 t1].
    cbn in Hc, Hconv, Hsel, Hreq. subst r1.
    destruct c.
    + destruct (IH (S attempt) t1) as (H1 & H2 & H3 & l & H4).
      repeat split; try congruence.
      exists (GetMessages cid :: l). rewrite H4, Hreq, <- app_assoc. reflexivity.
    + cbn. repeat split; try congruence.
      exists [GetMessages cid]. exact Hreq.
Qed.

Lemma loadMessages_frame cid retries delay answers s :
  fst (loadMessages cid retries delay answers s) = Ok tt /\
  conversations (snd (loadMessages cid retries delay answers s)) = conversations s /\
  selectedConversationId (snd (loadMessages cid retries delay answers s)) =
    selectedConversationId s /\
  exists l, requests (snd (loadMessages cid retries delay answers s)) =
    requests s ++ l.
Proof. apply load_loop_frame. Qed.

(** The list a completed [loadMessages] leaves is its own result. *)
Lemma loadMessages_messages cid retries delay answers s1 s2 :
  (0 < retries)%nat ->
  messages (snd (loadMessages cid retries delay answers s1)) =
  messages (snd (loadMessages cid retries delay answers s2)).
Proof.
  intros H. unfold loadMessages, bind, modify. cbn iota beta.
  apply load_loop_messages; lia.
Qed.

Lemma conversation_title_default title n :
  (title = None \/ exists t, title = Some t /\ trim t = EmptyString) ->
  conversation_title title n = ("Conversation " ++ nat_to_string (n + 1))%string.
Proof.
  intros [-> | (t & -> & Ht)]; unfold conversation_title; [reflexivity|].
  unfold str_or, str_falsy. rewrite Ht. reflexivity.
Qed.

(** With a usable customer, [createConversation] is its [try] block. *)
Lemma createConversation_customer title answer reload s cust :
  customerId s = Some cust -> cust <> 0 ->
  createConversation title answer reload s =
  try_catch
    (r <- fetch (PostConversation cust
                   (conversation_title title (List.length (conversations s)))) answer ;;
     let '(status, js) := r in
     if negb (res_ok status) then
       modify (add_error "Failed to create conversation") ;; ret None
     else
       newConversation <- res_json js ;;
       modify (fun s => set_conversations (newConversation :: conversations s) s) ;;
       modify (set_selected (Some (Conv.id newConversation))) ;;
       modify (set_showChatPanel true) ;;
       loadMessages (Conv.id newConversation) 3 300 reload ;;
       ret (Some newConversation))
    (fun _ => modify (add_error "Error creating conversation") ;; ret None) s.
Proof.
  intros E Hc. unfold createConversation. rewrite E.
  destruct cust; [contradiction | reflexivity | reflexivity].
Qed.

(** C9: with no usable title the POST carries [Conversation {n+1}]; a
    successful answer is prepended, selected and its messages loaded; a
    failed answer, or no customer, yields [null] and leaves the
    conversations and the selection as they were. *)
Theorem createConversation_default_title (title : option string)
    (answer : FetchOutcome Conv.t) (reload : nat -> FetchOutcome (list Msg.t))
    (s : Provider)
    (Hdefault : title = None \/ exists t, title = Some t /\ trim t = EmptyString) :
  let default :=
    ("Conversation " ++ nat_to_string (List.length (conversations s) + 1))%string in
  let '(r, s') := createConversation title answer reload s in
  (forall cust, customerId s = Some cust -> cust <> 0 ->
     nth_error (requests s') (List.length (requests s)) =
     Some (PostConversation cust default)) /\
  (forall cust status c, customerId s = Some cust -> cust <> 0 ->
     answer = HttpResponse status (Some c) -> res_ok status = true ->
     r = Ok (Some c) /\ conversations s' = c :: conversations s /\
     selectedConversationId s' = Some (Conv.id c) /\
     messages s' = messages (snd (loadMessages (Conv.id c) 3 300 reload empty_provider))) /\
  ((customerId s = None \/
    (forall status c, answer = HttpResponse status (Some c) -> res_ok status = false)) ->
   r = Ok None /\ conversations s' = conversations s /\
   selectedConversationId s' = selectedConversationId s).
Proof.
  cbv zeta.
  rewrite <- (conversation_title_default title (List.length (conversations s)) Hdefault).
  destruct (customerId s) as [cust|] eqn:Ec.
  2: { unfold createConversation. rewrite Ec. cbn.
       split; [intros ? H; discriminate|]. split; [intros ? ? ? H; discriminate|].
       intros _. auto. }
  destruct (Z.eq_dec cust 0) as [->|Hc].
  { unfold createConversation. rewrite Ec. cbn.
    split; [intros ? H H'; injection H as <-; congruence|].
    split; [intros ? ? ? H H'; injection H as <-; congruence|].
    intros _. auto. }
  rewrite (createConversation_customer title answer reload s cust Ec Hc).
  set (T := conversation_title title (List.length (conversations s))).
  assert (Hreq : forall l, nth_error (requests s ++ PostConversation cust T :: l)
                             (List.length (requests s)) = Some (PostConversation cust T)).
  { intros l. rewrite nth_error_app2, Nat.sub_diag; reflexivity. }
  destruct answer as [|st [c|]].
  - cbn. split; [intros c0 H _; injection H as <-; apply (Hreq [])|].
    split; [intros ? ? ? _ _ H; discriminate|]. intros _. auto.
  - destruct (res_ok st) eqn:R.
    + unfold try_catch, try_catch_finally, fetch, bind at 1 2 3 4 5 6 7 8, modify, ret, res_json.
      cbn -[loadMessages]. rewrite R. cbn -[loadMessages].
      set (s0 := set_showChatPanel true (set_selected (Some (Conv.id c))
                   (set_conversations (c :: conversations s)
                      (add_request (PostConversation cust T) s)))).
      destruct (loadMessages_frame (Conv.id c) 3 300 reload s0)
        as (Hok & Hconv & Hsel & l & Hrq).
      pose proof (loadMessages_messages (Conv.id c) 3 300 reload s0 empty_provider)
        as Hmsg.
      destruct (loadMessages (Conv.id c) 3 300 reload s0) as [r0 s1].
      cbn in Hok, Hconv, Hsel, Hrq, Hmsg |- *. subst r0.
      split; [intros c0 H _; injection H as <-; rewrite Hrq, <- app_assoc; apply Hreq|].
      split.
      * intros ? ? ? _ _ H _. injection H as -> ->.
        split; [reflexivity|]. split; [exact Hconv|]. split; [exact Hsel|].
        rewrite Hmsg by lia. reflexivity.
      * intros [H | H]; [discriminate|].
        specialize (H st c eq_refl). congruence.
    + unfold try_catch, try_catch_finally, fetch, bind, modify, ret, res_json.
      cbn -[res_ok loadMessages]. rewrite R. cbn.
      split; [intros c0 H _; injection H as <-; apply (Hreq [])|].
      split; [intros ? ? ? _ _ H; injection H as -> ->; congruence|].
      intros _. auto.
  - unfold try_catch, try_catch_finally, fetch, bind, modify, ret, res_json, throw.
    cbn -[res_ok loadMessages]. destruct (res_ok st); cbn.
    + split; [intros c0 H _; injection H as <-; apply (Hreq [])|].
      split; [intros ? ? ? _ _ H; discriminate|]. intros _. auto.
    + split; [intros c0 H _; injection H as <-; apply (Hreq [])|].
      split; [intros ? ? ? _ _ H; discriminate|]. intros _. auto.
Qed.

Lemma createConversation_default_title_witness :
  (None = @None string \/ exists t, None = Some t /\ trim t = EmptyString) /\
  let s := mkProvider false (Some 7) [] None [msg101] false false [] [] [] in
  let default :=
    ("Conversation " ++ nat_to_string (List.length (conversations s) + 1))%string in
  let '(r, s') := createConversation None
                    (HttpResponse 201 (Some (Conv.mk 9 7 "Conversation 1" "th" "c")))
                    no_reload s in
  (forall cust, customerId s = Some cust -> cust <> 0 ->
     nth_error (requests s') (List.length (requests s)) =
     Some (PostConversation cust default)) /\
  (forall cust status c, customerId s = Some cust -> cust <> 0 ->
     HttpResponse 201 (Some (Conv.mk 9 7 "Conversation 1" "th" "c")) =
       HttpResponse status (Some c) -> res_ok status = true ->
     r = Ok (Some c) /\ conversations s' = c :: conversations s /\
     selectedConversationId s' = Some (Conv.id c) /\
     messages s' = messages (snd (loadMessages (Conv.id c) 3 300 no_reload empty_provider))) /\
  ((customerId s = None \/
    (forall status c, HttpResponse 201 (Some (Conv.mk 9 7 "Conversation 1" "th" "c")) =
                        HttpResponse status (Some c) -> res_ok status = false)) ->
   r = Ok None /\ conversations s' = conversations s /\
   selectedConversationId s' = selectedConversationId s).
Proof.
  split; [left; reflexivity|].
  exact (createConversation_default_title None
           (HttpResponse 201 (Some (Conv.mk 9 7 "Conversation 1" "th" "c")))
           no_reload (mkProvider false (Some 7) [] None [msg101] false false [] [] [])
           (or_introl eq_refl)).
Defined.




















Lemma supported_types_as_claimed t :
  existsb (String.eqb t) SUPPORTED_FILE_TYPES = existsb (String.eqb t) claimed_mime_types.
Proof.
  apply eq_true_iff_eq. rewrite !existsb_exists.
  split; intros (x & Hin & Heq); exists x; split; try exact Heq;
    cbn in Hin |- *; tauto.
Qed.

Lemma isValidType_as_claimed f :
  isValidType f =
  existsb (String.eqb (type f)) claimed_mime_types
  || existsb (ends_with (name f)) [".docx"; ".doc"; ".txt"; ".md"]%string.
Proof.
  unfold isValidType. rewrite supported_types_as_claimed. cbn [existsb].
  destruct (existsb _ claimed_mime_types), (ends_with (name f) ".docx"),
    (ends_with (name f) ".doc"), (ends_with (name f) ".txt"),
    (ends_with (name f) ".md"); reflexivity.
Qed.

Lemma collect_files_as_claimed fresh fs : forall i,
  map Upload.file (fst (collect_files fresh i fs)) = filter accepted_as_claimed fs /\
  Forall2 (fun f e => exists rest, e = (name f ++ ": " ++ rest)%string)
    (filter (fun f => negb (accepted_as_claimed f)) fs)
    (snd (collect_files fresh i fs)).
Proof.
  induction fs as [|f r IH]; intros i; [split; [reflexivity | constructor]|].
  cbn [collect_files]. destruct (IH (S i)) as [Hn He].
  destruct (collect_files fresh (S i) r) as [nf errs]. cbn in Hn, He.
  cbn [filter fst snd].
  replace (accepted_as_claimed f) with ((size f <=? 10 * 1024 * 1024) && isValidType f)
    by (unfold accepted_as_claimed; rewrite isValidType_as_claimed; reflexivity).
  destruct (isValidType f) eqn:V; cbn [negb].
  - destruct (MAX_FILE_SIZE <? size f) eqn:S; unfold MAX_FILE_SIZE in S.
    + replace (size f <=? 10 * 1024 * 1024) with false
        by (symmetry; apply Z.leb_gt; apply Z.ltb_lt in S; exact S).
      cbn. split; [exact Hn|]. constructor; [eexists; reflexivity | exact He].
    + replace (size f <=? 10 * 1024 * 1024) with true
        by (symmetry; apply Z.leb_le; apply Z.ltb_ge in S; exact S).
      cbn. split; [rewrite Hn; reflexivity | exact He].
  - rewrite andb_false_r. cbn.
    split; [exact Hn|]. constructor; [eexists; reflexivity | exact He].
Qed.

(** C10: choosing files adds to the upload list exactly the files the rule
    accepts (at most 10 MB, a listed MIME type or a listed extension), in
    order, and reports each rejected file with an error line naming it. *)
Theorem handleFileSelect_validates (uploadedFiles : list Upload.t)
    (fs : list File) (fresh : nat -> string) :
  let '(uploaded', errs) := handleFileSelect (Some fs) fresh uploadedFiles in
  map Upload.file uploaded' =
    map Upload.file uploadedFiles ++ filter accepted_as_claimed fs /\
  Forall2 (fun f e => exists rest, e = (name f ++ ": " ++ rest)%string)
    (filter (fun f => negb (accepted_as_claimed f)) fs) errs.
Proof.
  destruct fs as [|f r].
  - cbn. rewrite app_nil_r. split; [reflexivity | constructor].
  - unfold handleFileSelect.
    destruct (collect_files_as_claimed fresh (f :: r) 0) as [Hn He].
    destruct (collect_files fresh 0 (f :: r)) as [nf errs]. cbn in Hn, He.
    split; [|exact He].
    destruct (Nat.ltb 0 (List.length nf)) eqn:L.
    + rewrite map_app, Hn. reflexivity.
    + destruct nf; cbn in Hn, L |- *.
      * rewrite <- Hn, app_nil_r. reflexivity.
      * discriminate L.
Qed.

Lemma loadMessages_gives_up_after_three_attempts_witness :
  (forall i, (i < 3)%nat -> failing (A := list Msg.t) (HttpResponse 500 None) = true) /\
  exists s', loadMessages 7 3 300 (fun _ => HttpResponse 500 None) empty_provider = (Ok tt, s') /\
    messages s' = [] /\
    requests s' = requests empty_provider ++ repeat (GetMessages 7) 3 /\
    timers s' = timers empty_provider ++ [300 * 2 ^ 0; 300 * 2 ^ 1] /\
    List.length (errors s') = S (List.length (errors empty_provider)).
Proof.
  split; [intros; reflexivity|].
  apply (loadMessages_gives_up_after_three_attempts 7 300 (fun _ => HttpResponse 500 None)
           empty_provider).
  intros; reflexivity.
Defined.

(* ------------------------------------------------------------------ *)
(** ** Strings: [trim], prefixes and decimal digits *)

Lemma append_assoc_str (a b c : string) :
  ((a ++ b) ++ c)%string = (a ++ (b ++ c))%string.
Proof. induction a as [|x a IH]; cbn; [reflexivity | now rewrite IH]. Qed.

Lemma trim_start_shape s :
  trim_start s = EmptyString \/
  exists c r, trim_start s = String c r /\ is_js_ws c = false.
Proof.
  induction s as [|c r IH]; cbn; [now left|].
  destruct (is_js_ws c) eqn:W; [exact IH | right; eauto].
Qed.

Lemma trim_end_nonws c r :
  is_js_ws c = false -> trim_end (String c r) = String c (trim_end r).
Proof. intros W. cbn. rewrite W. reflexivity. Qed.

Lemma trim_start_nonws c r :
  is_js_ws c = false -> trim_start (String c r) = String c r.
Proof. intros W. cbn. rewrite W. reflexivity. Qed.

Lemma trim_end_idem s : trim_end (trim_end s) = trim_end s.
Proof.
  induction s as [|c r IH]; [reflexivity|].
  cbn [trim_end].
  destruct (is_js_ws c && String.eqb (trim_end r) EmptyString) eqn:E.
  - reflexivity.
  - cbn [trim_end]. rewrite IH, E. reflexivity.
Qed.

(** [s.trim().trim() === s.trim()] *)
Lemma trim_idem s : trim (trim s) = trim s.
Proof.
  unfold trim.
  destruct (trim_start_shape s) as [E | (c & r & E & W)]; rewrite E; [reflexivity|].
  rewrite trim_end_nonws by exact W.
  rewrite trim_start_nonws by exact W.
  rewrite trim_end_nonws by exact W.
  rewrite trim_end_idem. reflexivity.
Qed.

Lemma trim_shape s :
  trim s = EmptyString \/
  exists c r, trim s = String c r /\ is_js_ws c = false.
Proof.
  unfold trim.
  destruct (trim_start_shape s) as [E | (c & r & E & W)]; rewrite E; [now left|].
  right. exists c, (trim_end r). split; [|exact W].
  apply trim_end_nonws, W.
Qed.

Lemma trim_head_nonempty c r :
  is_js_ws c = false -> trim (String c r) <> EmptyString.
Proof.
  intros W. unfold trim. rewrite trim_start_nonws, trim_end_nonws by exact W.
  discriminate.
Qed.

Lemma trim_end_last_nonws p d :
  is_js_ws d = false ->
  trim_end (p ++ String d EmptyString) = (p ++ String d EmptyString)%string.
Proof.
  intros W. induction p as [|c p IH].
  - cbn. rewrite W. reflexivity.
  - cbn [append trim_end]. rewrite IH.
    replace (String.eqb (p ++ String d EmptyString) EmptyString) with false
      by (destruct p; reflexivity).
    rewrite andb_false_r. reflexivity.
Qed.

Lemma digit_not_ws n : is_js_ws (ascii_of_nat (48 + n mod 10)) = false.
Proof.
  unfold is_js_ws. rewrite nat_ascii_embedding
    by (pose proof (Nat.mod_upper_bound n 10); lia).
  assert (Hm : (n mod 10 < 10)%nat) by (apply Nat.mod_upper_bound; lia).
  remember (n mod 10)%nat as m eqn:Em. clear Em.
  do 10 (destruct m as [|m]; [reflexivity|]). lia.
Qed.

Lemma digits_of_app fuel : forall n acc,
  exists p, digits_of fuel n acc = (p ++ acc)%string.
Proof.
  induction fuel as [|f IH]; intros n acc; cbn [digits_of].
  - exists EmptyString. reflexivity.
  - destruct (Nat.ltb n 10).
    + exists (String (ascii_of_nat (48 + n mod 10)) EmptyString). reflexivity.
    + destruct (IH (n / 10)%nat (String (ascii_of_nat (48 + n mod 10)) acc)) as [p E].
      exists (p ++ String (ascii_of_nat (48 + n mod 10)) EmptyString)%string.
      rewrite E, append_assoc_str. reflexivity.
Qed.

Lemma nat_to_string_last n :
  exists p d, nat_to_string n = (p ++ String d EmptyString)%string /\
              is_js_ws d = false.
Proof.
  unfold nat_to_string. cbn [digits_of].
  destruct (Nat.ltb n 10).
  - exists EmptyString, (ascii_of_nat (48 + n mod 10)).
    split; [reflexivity | apply digit_not_ws].
  - destruct (digits_of_app n (n / 10)%nat
                (String (ascii_of_nat (48 + n mod 10)) EmptyString)) as [p E].
    exists p, (ascii_of_nat (48 + n mod 10)). split; [exact E | apply digit_not_ws].
Qed.

Lemma default_title_trim n :
  trim ("Conversation " ++ nat_to_string n) = ("Conversation " ++ nat_to_string n)%string.
Proof.
  destruct (nat_to_string_last n) as (p & d & E & W). rewrite E.
  rewrite <- append_assoc_str. unfold trim.
  replace (trim_start (("Conversation " ++ p) ++ String d EmptyString))
    with (("Conversation " ++ p) ++ String d EmptyString)%string by reflexivity.
  apply trim_end_last_nonws, W.
Qed.

(** [createConversation] depends on its title only through the title it posts. *)
Lemma createConversation_title_ext t1 t2 answer reload s :
  conversation_title t1 (List.length (conversations s)) =
  conversation_title t2 (List.length (conversations s)) ->
  createConversation t1 answer reload s = createConversation t2 answer reload s.
Proof.
  intros E. unfold createConversation.
  destruct (customerId s) as [[|p|p]|]; try reflexivity; rewrite E; reflexivity.
Qed.

(** X: [handleAddConversation] does nothing when the prompt is cancelled;
    otherwise its own [sanitized || defaultTitle] fallback changes nothing:
    it behaves exactly as [createConversation] called with the raw text
    typed in the prompt. *)
Theorem handleAddConversation_is_createConversation
    (answer : FetchOutcome Conv.t) (reload : nat -> FetchOutcome (list Msg.t))
    (s : Provider) :
  handleAddConversation None answer reload s = (Ok tt, s) /\
  forall input : string,
    handleAddConversation (Some input) answer reload s =
    (createConversation (Some input) answer reload ;; ret tt) s.
Proof.
  split; [reflexivity|]. intros input.
  unfold handleAddConversation. cbv zeta iota. unfold bind.
  rewrite (createConversation_title_ext _ (Some input)); [reflexivity|].
  unfold conversation_title, str_or, str_falsy.
  destruct (String.eqb (trim input) EmptyString) eqn:E.
  - rewrite default_title_trim. reflexivity.
  - rewrite trim_idem, E. reflexivity.
Qed.

(* ------------------------------------------------------------------ *)
(** ** The typing animation *)

Lemma length_substring0 k s :
  String.length (substring 0 k s) = Nat.min k (String.length s).
Proof.
  revert k. induction s as [|c s IH]; intros [|k]; cbn; auto.
Qed.

Lemma substring0_min k s :
  substring 0 (Nat.min k (String.length s)) s = substring 0 k s.
Proof.
  revert k. induction s as [|c s IH]; intros [|k]; cbn; auto.
  rewrite IH. reflexivity.
Qed.

Lemma substring0_full s : substring 0 (String.length s) s = s.
Proof. induction s as [|c s IH]; cbn; [reflexivity | now rewrite IH]. Qed.

Lemma typing_tick_some t :
  (String.length (displayedText t) < String.length (fullText t))%nat ->
  exists k d, typing_tick t =
    (Some (mkTyping (typing_id t) (fullText t)
             (substring 0 (String.length (displayedText t) + S k) (fullText t))), d) /\
    (d = 25 \/ d = 80).
Proof.
  intros L. unfold typing_tick. apply Nat.ltb_lt in L. rewrite L. cbv zeta.
  destruct (index_below _ 5) as [i|];
    [| destruct (index_below _ 3) as [i|]];
    [exists i | exists i | exists O];
    match goal with |- exists d, (_, ?e) = _ /\ _ => exists e end;
    (split; [rewrite ?Nat.add_1_r; reflexivity|]);
    destruct (match get 0 _ with Some c => is_punctuation c | None => false end);
    auto.
Qed.

Lemma typing_tick_none t :
  (String.length (fullText t) <= String.length (displayedText t))%nat ->
  typing_tick t = (None, 200).
Proof.
  intros L. unfold typing_tick.
  replace (Nat.ltb _ _) with false by (symmetry; apply Nat.ltb_ge; exact L).
  reflexivity.
Qed.

Lemma get_substring0 n m s :
  (0 < m)%nat -> get 0 (substring n m s) = get n s.
Proof.
  intros Hm. revert n. induction s as [|c s IH]; intros [|n].
  - destruct m; [lia | reflexivity].
  - reflexivity.
  - destruct m; [lia | reflexivity].
  - cbn [substring get]. apply IH.
Qed.

Lemma get_in_range n s :
  (n < String.length s)%nat -> exists c, get n s = Some c.
Proof.
  revert n. induction s as [|c s IH]; intros [|n] H; cbn in H |- *; [lia | lia | eauto |].
  apply IH. lia.
Qed.

Lemma typing_tick_delay t :
  (String.length (displayedText t) < String.length (fullText t))%nat ->
  exists c, get (String.length (displayedText t)) (fullText t) = Some c /\
    snd (typing_tick t) = if is_punctuation c then 80 else 25.
Proof.
  intros L. destruct (get_in_range _ _ L) as [c Hc]. exists c. split; [exact Hc|].
  unfold typing_tick. replace (Nat.ltb _ _) with true
    by (symmetry; apply Nat.ltb_lt; exact L).
  cbv zeta. cbn [snd]. rewrite get_substring0 by lia. rewrite Hc. reflexivity.
Qed.

(** X: while the typing animation shows a prefix of the agent's text,
    each timer either reveals a strictly longer prefix of the same text,
    after 80 ms when the next hidden character is one of [. , ! ? ; :]
    and after 25 ms otherwise, or, once the whole text is shown, clears
    the animation after 200 ms. *)
Theorem typing_tick_reveals_prefix (t : Typing)
    (Hprefix : displayedText t =
               substring 0 (String.length (displayedText t)) (fullText t)) :
  match typing_tick t with
  | (Some t', delay) =>
      typing_id t' = typing_id t /\ fullText t' = fullText t /\
      displayedText t' =
        substring 0 (String.length (displayedText t')) (fullText t') /\
      (String.length (displayedText t) < String.length (displayedText t')
       <= String.length (fullText t))%nat /\
      exists c, get (String.length (displayedText t)) (fullText t) = Some c /\
        delay = (if is_punctuation c then 80 else 25)
  | (None, delay) => displayedText t = fullText t /\ delay = 200
  end.
Proof.
  destruct (Nat.lt_ge_cases (String.length (displayedText t))
              (String.length (fullText t))) as [L|L].
  - destruct (typing_tick_delay t L) as (c & Hc & Hd).
    destruct (typing_tick_some t L) as (k & d & E & _).
    rewrite E in Hd |- *. cbn in Hd |- *.
    rewrite length_substring0, substring0_min.
    repeat split; try lia. exists c. split; [exact Hc | exact Hd].
  - rewrite typing_tick_none by exact L.
    split; [|reflexivity].
    assert (E : String.length (displayedText t) = String.length (fullText t)).
    { pose proof (f_equal String.length Hprefix) as E.
      rewrite length_substring0 in E. lia. }
    rewrite Hprefix, E, substring0_full. reflexivity.
Qed.

Lemma animate_ends n : forall t,
  displayedText t = substring 0 (String.length (displayedText t)) (fullText t) ->
  (String.length (fullText t) - String.length (displayedText t) < n)%nat ->
  animate n t = None.
Proof.
  induction n as [|n IH]; intros t Hp Hn; [lia|].
  cbn [animate].
  destruct (Nat.lt_ge_cases (String.length (displayedText t))
              (String.length (fullText t))) as [L|L].
  - destruct (typing_tick_some t L) as (k & d & -> & _). cbn [fst].
    apply IH; cbn [displayedText fullText].
    + rewrite length_substring0, substring0_min. reflexivity.
    + rewrite length_substring0. lia.
  - rewrite typing_tick_none by exact L. reflexivity.
Qed.

(** X: an animation started on a prefix of the agent's text (the trigger
    starts it on [""]) ends, the timers left to fire, after at most one
    tick per character still hidden plus the final one: [typingMessage]
    becomes [null]. *)
Theorem typing_animation_terminates (t : Typing)
    (Hprefix : displayedText t =
               substring 0 (String.length (displayedText t)) (fullText t)) :
  animate (S (String.length (fullText t) - String.length (displayedText t))) t = None.
Proof. apply animate_ends; [exact Hprefix | lia]. Qed.

Lemma typing_tick_reveals_prefix_witness :
  let t := mkTyping 102 "Hi, how can I help?" "Hi, " in
  displayedText t = substring 0 (String.length (displayedText t)) (fullText t) /\
  match typing_tick t with
  | (Some t', delay) =>
      typing_id t' = typing_id t /\ fullText t' = fullText t /\
      displayedText t' =
        substring 0 (String.length (displayedText t')) (fullText t') /\
      (String.length (displayedText t) < String.length (displayedText t')
       <= String.length (fullText t))%nat /\
      exists c, get (String.length (displayedText t)) (fullText t) = Some c /\
        delay = (if is_punctuation c then 80 else 25)
  | (None, delay) => displayedText t = fullText t /\ delay = 200
  end.
Proof.
  intros t. split; [reflexivity|].
  apply (typing_tick_reveals_prefix t). reflexivity.
Defined.

Lemma typing_animation_terminates_witness :
  let t := mkTyping 102 "Hi, how can I help?" EmptyString in
  displayedText t = substring 0 (String.length (displayedText t)) (fullText t) /\
  animate (S (String.length (fullText t) - String.length (displayedText t))) t = None.
Proof.
  intros t. split; [reflexivity|].
  apply (typing_animation_terminates t). reflexivity.
Defined.

(* ------------------------------------------------------------------ *)
(** ** The agent message the animation starts on *)

Lemma last_agent_from_spec ms : forall best m,
  last_agent_from best ms = Some m ->
  (best = Some m \/ (In m ms /\ Msg.author m = Agent)) /\
  (forall b, best = Some b -> Msg.id b <= Msg.id m) /\
  (forall m', In m' ms -> Msg.author m' = Agent -> Msg.id m' <= Msg.id m).
Proof.
  induction ms as [|x r IH]; intros best m H; cbn [last_agent_from] in H.
  - subst best. split; [now left|]. split; [intros b E; injection E as ->; lia|].
    intros m' [].
  - assert (Ax : author_eqb (Msg.author x) Agent = true <-> Msg.author x = Agent)
      by (destruct (Msg.author x); cbn; intuition congruence).
    destruct (author_eqb (Msg.author x) Agent) eqn:A.
    + destruct best as [b|].
      * destruct (Msg.id b <? Msg.id x) eqn:Lt.
        -- apply Z.ltb_lt in Lt.
           destruct (IH _ _ H) as (H1 & H2 & H3).
           specialize (H2 x eq_refl).
           split; [|split].
           ++ right. destruct H1 as [E | [I Au]].
              ** injection E as <-. split; [now left | apply Ax; reflexivity].
              ** split; [now right | exact Au].
           ++ intros b' E. injection E as <-. lia.
           ++ intros m' [<- | I] Au; [exact H2 | apply H3; assumption].
        -- apply Z.ltb_ge in Lt.
           destruct (IH _ _ H) as (H1 & H2 & H3).
           specialize (H2 b eq_refl).
           split; [|split].
           ++ destruct H1 as [E | [I Au]]; [now left | right; split; [now right | exact Au]].
           ++ intros b' E. injection E as <-. exact H2.
           ++ intros m' [<- | I] Au; [lia | apply H3; assumption].
      * destruct (IH _ _ H) as (H1 & H2 & H3).
        specialize (H2 x eq_refl).
        split; [|split].
        -- right. destruct H1 as [E | [I Au]].
           ++ injection E as <-. split; [now left | apply Ax; reflexivity].
           ++ split; [now right | exact Au].
        -- intros b' E. discriminate.
        -- intros m' [<- | I] Au; [exact H2 | apply H3; assumption].
    + destruct (IH _ _ H) as (H1 & H2 & H3).
      split; [|split].
      * destruct H1 as [E | [I Au]]; [now left | right; split; [now right | exact Au]].
      * exact H2.
      * intros m' [<- | I] Au.
        -- apply Ax in Au. congruence.
        -- apply H3; assumption.
Qed.

Lemma last_agent_from_none ms : forall best,
  last_agent_from best ms = None ->
  best = None /\ forall m, In m ms -> Msg.author m <> Agent.
Proof.
  induction ms as [|x r IH]; intros best H; cbn [last_agent_from] in H.
  - split; [exact H | intros m []].
  - destruct (author_eqb (Msg.author x) Agent) eqn:A.
    + destruct best as [b|]; [destruct (Msg.id b <? Msg.id x)|];
        destruct (IH _ H) as [E _]; discriminate.
    + destruct (IH _ H) as [E Hr]. split; [exact E|].
      intros m [<- | I]; [|apply Hr, I].
      destruct (Msg.author x); cbn in A; discriminate.
Qed.

(** X: the message the animation is started on is an agent message of
    the list with the largest id among the agent messages; there is none
    exactly when the list holds no agent message. *)
Theorem last_agent_message_is_newest (ms : list Msg.t) :
  match last_agent_message ms with
  | Some m =>
      In m ms /\ Msg.author m = Agent /\
      forall m', In m' ms -> Msg.author m' = Agent -> Msg.id m' <= Msg.id m
  | None => forall m, In m ms -> Msg.author m <> Agent
  end.
Proof.
  unfold last_agent_message.
  destruct (last_agent_from None ms) as [m|] eqn:E.
  - destruct (last_agent_from_spec ms None m E) as ([D | [I A]] & _ & H3);
      [discriminate | auto].
  - apply (last_agent_from_none ms None E).
Qed.

(* ------------------------------------------------------------------ *)
(** ** File labels of the upload list *)

Lemma isValidType_label f :
  isValidType f = true -> getFileTypeLabel f <> "FILE"%string.
Proof.
  intros H. unfold getFileTypeLabel.
  destruct (String.eqb (type f) "application/pdf") eqn:E1; [discriminate|].
  destruct (_ || ends_with (name f) ".docx") eqn:E2; [discriminate|].
  destruct (_ || ends_with (name f) ".doc") eqn:E3; [discriminate|].
  destruct (_ || ends_with (name f) ".txt") eqn:E4; [discriminate|].
  destruct (_ || ends_with (name f) ".md") eqn:E5; [discriminate|].
  destruct (starts_with (type f) "image/") eqn:E6; [discriminate|].
  exfalso.
  apply orb_false_iff in E2 as [E2 F2], E3 as [E3 F3], E4 as [E4 F4],
    E5 as [E5 F5].
  unfold isValidType in H. cbn [existsb SUPPORTED_FILE_TYPES] in H.
  rewrite E1, E2, E3, E4, E5, F2, F3, F4, F5 in H. cbn [orb] in H.
  repeat (apply orb_true_iff in H as [H|H]);
    try discriminate H;
    apply String.eqb_eq in H; unfold starts_with in E6; rewrite H in E6;
    vm_compute in E6; discriminate E6.
Qed.

Lemma collect_files_valid fresh fs : forall i u,
  In u (fst (collect_files fresh i fs)) -> isValidType (Upload.file u) = true.
Proof.
  induction fs as [|f r IH]; intros i u Hin; [destruct Hin|].
  cbn [collect_files] in Hin.
  specialize (IH (S i) u).
  destruct (collect_files fresh (S i) r) as [nf errs].
  destruct (isValidType f) eqn:V; cbn [negb fst] in Hin |- *.
  - destruct (MAX_FILE_SIZE <? size f); cbn [fst] in Hin.
    + apply IH, Hin.
    + destruct Hin as [<- | Hin]; [exact V | apply IH, Hin].
  - apply IH, Hin.
Qed.

(** X: the upload list never holds a file that the panel labels
    ["FILE"]: every file [handleFileSelect] adds gets one of the labels
    PDF, DOCX, DOC, TXT, MD or IMAGE. *)
Theorem handleFileSelect_never_unlabelled (files : option (list File))
    (fresh : nat -> string) (uploadedFiles : list Upload.t)
    (Hlabelled : forall u, In u uploadedFiles ->
                 getFileTypeLabel (Upload.file u) <> "FILE"%string) :
  forall u, In u (fst (handleFileSelect files fresh uploadedFiles)) ->
  getFileTypeLabel (Upload.file u) <> "FILE"%string.
Proof.
  intros u Hin. unfold handleFileSelect in Hin.
  destruct files as [[|f r]|]; try (apply Hlabelled, Hin).
  pose proof (collect_files_valid fresh (f :: r) 0 u) as V.
  destruct (collect_files fresh 0 (f :: r)) as [nf errs]. cbn [fst] in Hin, V.
  destruct (Nat.ltb 0 (List.length nf)).
  - apply in_app_or in Hin as [Hin | Hin].
    + apply Hlabelled, Hin.
    + apply isValidType_label, V, Hin.
  - apply Hlabelled, Hin.
Qed.

Lemma handleFileSelect_never_unlabelled_witness :
  (forall u, In u [] -> getFileTypeLabel (Upload.file u) <> "FILE"%string) /\
  forall u, In u (fst (handleFileSelect (Some [cv_pdf]) (fun _ => "id"%string) [])) ->
  getFileTypeLabel (Upload.file u) <> "FILE"%string.
Proof.
  split; [intros u []|].
  apply (handleFileSelect_never_unlabelled (Some [cv_pdf]) (fun _ => "id"%string) []).
  intros u [].
Defined.

(* ------------------------------------------------------------------ *)
(** ** [loadMessages]: success after retries, and the loading flag *)

Lemma load_attempt_success cid retries attempt delay st data s :
  res_ok st = true ->
  load_attempt cid retries attempt delay (HttpResponse st (Some data)) s =
  (Ok Return, set_isLoading false (set_messages data (add_request (GetMessages cid) s))).
Proof. intros R. run_m. rewrite R. reflexivity. Qed.

Lemma load_loop_success_after cid retries delay answers st data j : forall a fuel s,
  (j < fuel)%nat -> (a + j < retries)%nat ->
  (forall i, (i < j)%nat -> failing (answers (a + i)%nat) = true) ->
  answers (a + j)%nat = HttpResponse st (Some data) -> res_ok st = true ->
  let s' := snd (load_loop fuel a cid retries delay answers s) in
  fst (load_loop fuel a cid retries delay answers s) = Ok tt /\
  messages s' = data /\ isLoadingMessages s' = false /\
  requests s' = requests s ++ repeat (GetMessages cid) (S j) /\
  timers s' = timers s ++ map (fun i => delay * 2 ^ Z.of_nat i) (seq a j) /\
  errors s' = errors s.
Proof.
  induction j as [|j IH]; intros a fuel s Hf Hr Hfail Hans Hok;
    (destruct fuel as [|fuel]; [lia|]); cbn [load_loop];
    (replace (Nat.ltb a retries) with true by (symmetry; apply Nat.ltb_lt; lia));
    cbv zeta; unfold bind.
  - rewrite Nat.add_0_r in Hans. rewrite Hans, load_attempt_success by exact Hok.
    cbn. rewrite !app_nil_r. repeat split; reflexivity.
  - rewrite load_attempt_retry.
    2: { rewrite <- (Nat.add_0_r a). apply Hfail. lia. }
    2: { apply Nat.ltb_lt. lia. }
    destruct (IH (S a) fuel
      (set_isLoading false (add_timer (delay * 2 ^ Z.of_nat a)
         (add_request (GetMessages cid) s)))) as (H1 & H2 & H3 & H4 & H5 & H6);
      [lia | lia | | | |].
    + intros i Hi. replace (S a + i)%nat with (a + S i)%nat by lia. apply Hfail. lia.
    + replace (S a + j)%nat with (a + S j)%nat by lia. exact Hans.
    + exact Hok.
    + cbn beta iota.
      cbn [set_isLoading add_timer add_request requests timers errors] in H4, H5, H6.
      repeat split; try assumption.
      * rewrite H4, <- app_assoc. reflexivity.
      * rewrite H5, <- app_assoc. reflexivity.
Qed.

(** X: if the first [k] fetches of [loadMessages] fail (rejected or
    non-2xx) and fetch [k] answers 2xx with a list, within the [retries]
    attempts, the list is shown, after [k+1] GETs, waits of
    [delay * 2^i] for [i < k], no error line, and the loading flag off. *)
Theorem loadMessages_recovers_after_failures (conversationId : Z) (retries k : nat)
    (delay : Z) (answers : nat -> FetchOutcome (list Msg.t)) (st : Z)
    (data : list Msg.t) (s : Provider)
    (Hk : (k < retries)%nat)
    (Hfail : forall i, (i < k)%nat -> failing (answers i) = true)
    (Hans : answers k = HttpResponse st (Some data)) (Hok : res_ok st = true) :
  let '(r, s') := loadMessages conversationId retries delay answers s in
  r = Ok tt /\ messages s' = data /\ isLoadingMessages s' = false /\
  requests s' = requests s ++ repeat (GetMessages conversationId) (S k) /\
  timers s' = timers s ++ map (fun i => delay * 2 ^ Z.of_nat i) (seq 0 k) /\
  errors s' = errors s.
Proof.
  unfold loadMessages, bind at 1, modify at 1.
  destruct (load_loop_success_after conversationId retries delay answers st data k
              0 retries (set_isLoading true s)) as (H1 & H2 & H3 & H4 & H5 & H6);
    try assumption; try lia.
  destruct (load_loop retries 0 conversationId retries delay answers
              (set_isLoading true s)) as [r s'].
  cbn in H1 |- *. subst r. repeat split; assumption.
Qed.

Lemma loadMessages_recovers_after_failures_witness :
  let answers := fun i : nat =>
    if Nat.eqb i 0 then NetworkError else HttpResponse 200 (Some [msg101]) in
  (1 < 3)%nat /\ (forall i, (i < 1)%nat -> failing (answers i) = true) /\
  answers 1%nat = HttpResponse 200 (Some [msg101]) /\ res_ok 200 = true /\
  let '(r, s') := loadMessages 5 3 300 answers empty_provider in
  r = Ok tt /\ messages s' = [msg101] /\ isLoadingMessages s' = false /\
  requests s' = requests empty_provider ++ repeat (GetMessages 5) 2 /\
  timers s' = timers empty_provider ++
              map (fun i => 300 * 2 ^ Z.of_nat i) (seq 0 1) /\
  errors s' = errors empty_provider.
Proof.
  intros answers.
  assert (Hf : forall i, (i < 1)%nat -> failing (answers i) = true).
  { intros i Hi. assert (i = 0%nat) by lia. subst i. reflexivity. }
  split; [lia|]. split; [exact Hf|]. split; [reflexivity|]. split; [reflexivity|].
  apply (loadMessages_recovers_after_failures 5 3 1 300 answers 200 [msg101]
           empty_provider); [lia | exact Hf | reflexivity | reflexivity].
Defined.

Lemma load_attempt_errors cid retries attempt delay o s :
  let s' := snd (load_attempt cid retries attempt delay o s) in
  isLoadingMessages s' = false /\
  ((errors s' = errors s /\
    (fst (load_attempt cid retries attempt delay o s) = Ok Return \/
     (fst (load_attempt cid retries attempt delay o s) = Ok Continue /\
      Nat.ltb attempt (retries - 1) = true))) \/
   ((exists e, errors s' = errors s ++ [e]) /\
    (exists c, fst (load_attempt cid retries attempt delay o s) = Ok c) /\
    Nat.ltb attempt (retries - 1) = false)).
Proof.
  destruct o as [|st [js|]]; run_m;
    try destruct (res_ok st) eqn:R; destruct (Nat.ltb attempt (retries - 1)) eqn:L;
    cbn; split; try reflexivity;
    first [ left; split; [reflexivity | auto]
          | right; split; [eexists; reflexivity | split; [eexists; reflexivity | reflexivity]]].
Qed.

Lemma load_loop_errors cid retries delay answers fuel : forall a s,
  (fuel + a = retries)%nat -> (a < retries)%nat ->
  let s' := snd (load_loop fuel a cid retries delay answers s) in
  fst (load_loop fuel a cid retries delay answers s) = Ok tt /\
  isLoadingMessages s' = false /\
  (errors s' = errors s \/ exists e, errors s' = errors s ++ [e]).
Proof.
  induction fuel as [|f IH]; intros a s Hf Ha; [lia|].
  cbn [load_loop]. replace (Nat.ltb a retries) with true
    by (symmetry; apply Nat.ltb_lt; exact Ha).
  pose proof (load_attempt_errors cid retries a delay (answers a) s) as HA.
  unfold bind.
  destruct (load_attempt cid retries a delay (answers a) s) as [r1 t1].
  cbn [fst snd] in HA. destruct HA as [Hl [[He [Hr | [Hr L]]] | [[e He] [[c Hr] L]]]];
    subst r1.
  - cbn. auto.
  - apply Nat.ltb_lt in L.
    destruct (IH (S a) t1) as (H1 & H2 & H3); [lia | lia |].
    rewrite He in H3. auto.
  - apply Nat.ltb_ge in L. destruct c.
    + destruct f as [|f]; cbn [load_loop].
      * cbn. eauto.
      * replace (Nat.ltb (S a) retries) with false
          by (symmetry; apply Nat.ltb_ge; lia).
        cbn. eauto.
    + cbn. eauto.
Qed.

(** X: [loadMessages] never rejects, whatever the backend does, and
    logs at most one error line; it leaves [isLoadingMessages] off,
    except with [retries = 0], where the loop never runs and the flag it
    set stays on. *)
Theorem loadMessages_never_rejects (conversationId : Z) (retries : nat) (delay : Z)
    (answers : nat -> FetchOutcome (list Msg.t)) (s : Provider) :
  let '(r, s') := loadMessages conversationId retries delay answers s in
  r = Ok tt /\ isLoadingMessages s' = Nat.eqb retries 0 /\
  (errors s' = errors s \/ exists e, errors s' = errors s ++ [e]).
Proof.
  unfold loadMessages, bind at 1, modify at 1.
  destruct retries as [|n].
  - cbn. auto.
  - destruct (load_loop_errors conversationId (S n) delay answers (S n) 0
                (set_isLoading true s)) as (H1 & H2 & H3); [lia | lia |].
    destruct (load_loop (S n) 0 conversationId (S n) delay answers
                (set_isLoading true s)) as [r s'].
    cbn in H1, H2, H3 |- *. subst r. auto.
Qed.

(* ------------------------------------------------------------------ *)
(** ** [sendMessage] with text to send *)

Ltac run_send :=
  unfold sendMessage, update_messages, try_catch_finally, fetch, bind, modify,
    throw, ret, res_json, wait, response_messages;
  cbn -[loadMessages res_ok drop_pending drop_pending_on_error trim str_or].

Lemma drop_pending_on_error_same text l :
  drop_pending_on_error text l = drop_pending text l.
Proof.
  unfold drop_pending_on_error, drop_pending. apply filter_ext. intros m.
  rewrite negb_andb. reflexivity.
Qed.

Lemma drop_pending_placeholder text cid now l :
  trim text <> EmptyString ->
  drop_pending text
    (l ++ [Msg.mk (-1) cid Admin (str_or (trim text) "[Files attached]") now]) =
  drop_pending text l.
Proof.
  intros Ht. unfold drop_pending. rewrite filter_app. cbn.
  unfold str_or, str_falsy.
  replace (String.eqb (trim text) EmptyString) with false
    by (symmetry; apply String.eqb_neq; exact Ht).
  rewrite String.eqb_refl. cbn. apply app_nil_r.
Qed.

Lemma drop_pending_no_pending text l :
  (forall m, In m l -> Msg.id m <> -1) -> drop_pending text l = l.
Proof.
  intros H. unfold drop_pending. induction l as [|m r IH]; [reflexivity|].
  cbn [filter]. replace (Msg.id m =? -1) with false
    by (symmetry; apply Z.eqb_neq, H; now left).
  cbn [andb negb]. f_equal. apply IH. intros x Hx. apply H. now right.
Qed.

Lemma str_or_empty a : str_or a EmptyString = a.
Proof.
  unfold str_or, str_falsy. destruct (String.eqb_spec a EmptyString); congruence.
Qed.

Lemma load_loop_requests cid retries delay answers fuel : forall a s,
  exists k, requests (snd (load_loop fuel a cid retries delay answers s)) =
            requests s ++ repeat (GetMessages cid) k.
Proof.
  induction fuel as [|f IH]; intros a s; cbn [load_loop].
  - exists O. cbn. symmetry. apply app_nil_r.
  - destruct (Nat.ltb a retries).
    2: { exists O. cbn. symmetry. apply app_nil_r. }
    destruct (load_attempt_frame cid retries a delay (answers a) s)
      as ([c Hc] & _ & _ & Hreq).
    unfold bind.
    destruct (load_attempt cid retries a delay (answers a) s) as [r1 t1].
    cbn in Hc, Hreq. subst r1. destruct c.
    + destruct (IH (S a) t1) as [k Hk]. exists (S k).
      rewrite Hk, Hreq, <- app_assoc. reflexivity.
    + exists 1%nat. exact Hreq.
Qed.

Lemma loadMessages_requests cid retries delay answers s :
  exists k, requests (snd (loadMessages cid retries delay answers s)) =
            requests s ++ repeat (GetMessages cid) k.
Proof.
  destruct (load_loop_requests cid retries delay answers retries 0
              (set_isLoading true s)) as [k Hk].
  exists k. exact Hk.
Qed.

Ltac crush_load :=
  match goal with
  | |- context [loadMessages ?c ?r ?d ?a ?x] =>
      let k := fresh "k" in
      let Hk := fresh "Hk" in
      let H1 := fresh "H1" in
      destruct (loadMessages_requests c r d a x) as [k Hk];
      destruct (loadMessages_frame c r d a x) as (H1 & _);
      destruct (loadMessages c r d a x) as [?lr ?ls];
      cbn in Hk, H1 |- *; subst
  end.

Lemma sendMessage_outcome (conversationId : Z) (text : string)
    (files : option (list File)) (now : string)
    (answer : FetchOutcome SendResponse) (reload : nat -> FetchOutcome (list Msg.t))
    (s : Provider)
    (Hsend : str_falsy (trim text) && no_files files = false) :
  let '(r, s') := sendMessage conversationId text files now answer reload s in
  r = Ok tt /\ isSending s' = false /\
  exists k, requests s' =
    requests s ++
    PostMessage conversationId
      (match files with
       | Some ((_ :: _) as fs) => FormBody (trim text) fs
       | _ => JsonBody text
       end)
    :: repeat (GetMessages conversationId) k.
Proof.
  unfold sendMessage. rewrite Hsend.
  destruct files as [[|f fs]|]; run_send; rewrite ?str_or_empty;
    (destruct answer as [|st [[|[[|m ms]|]]|]];
      cbn -[loadMessages res_ok drop_pending drop_pending_on_error trim str_or];
      [| destruct (res_ok st) .. ];
      cbn -[loadMessages drop_pending drop_pending_on_error trim str_or];
      try crush_load;
      (split; [reflexivity | split; [reflexivity|]]);
      first [ exists O; reflexivity
            | eexists; cbn [requests set_isSending]; rewrite Hk, <- app_assoc;
              reflexivity ]).
Qed.

(** X: a send that is not a no-op never rejects, ends with
    [isSending] off, and sends exactly one POST, never retried: a
    multipart form with the trimmed text when files are attached, else
    JSON with the text as typed (untrimmed); the only requests after it
    are the GETs of a fallback reload. *)
Theorem sendMessage_posts_once (conversationId : Z) (text : string)
    (files : option (list File)) (now : string)
    (answer : FetchOutcome SendResponse) (reload : nat -> FetchOutcome (list Msg.t))
    (s : Provider)
    (Hsend : str_falsy (trim text) && no_files files = false) :
  let '(r, s') := sendMessage conversationId text files now answer reload s in
  r = Ok tt /\ isSending s' = false /\
  exists k, requests s' =
    requests s ++
    PostMessage conversationId
      (match files with
       | Some ((_ :: _) as fs) => FormBody (trim text) fs
       | _ => JsonBody text
       end)
    :: repeat (GetMessages conversationId) k.
Proof. apply sendMessage_outcome, Hsend. Qed.

Lemma sendMessage_posts_once_witness :
  str_falsy (trim "hello") && no_files None = false /\
  let '(r, s') := sendMessage 5 "hello" None "2026-01-01T00:00:00Z"
                    (HttpResponse 200 (Some (RObject (Some [msg101])))) no_reload
                    empty_provider in
  r = Ok tt /\ isSending s' = false /\
  exists k, requests s' =
    requests empty_provider ++
    PostMessage 5
      (match @None (list File) with
       | Some ((_ :: _) as fs) => FormBody (trim "hello") fs
       | _ => JsonBody "hello"
       end)
    :: repeat (GetMessages 5) k.
Proof.
  split; [reflexivity|].
  apply (sendMessage_posts_once 5 "hello" None "2026-01-01T00:00:00Z"
           (HttpResponse 200 (Some (RObject (Some [msg101])))) no_reload
           empty_provider).
  reflexivity.
Defined.

(** X: with non-blank text, a send whose response is 2xx with a
    non-empty [messages] array ends with the pending placeholders for
    this text removed and the server's messages appended in order:
    every placeholder ([id -1]) with the same trimmed text is dropped,
    including those of other sends still in flight. *)
Theorem sendMessage_success_replaces_placeholder (conversationId : Z)
    (text : string) (files : option (list File)) (now : string) (status : Z)
    (ms : list Msg.t) (reload : nat -> FetchOutcome (list Msg.t)) (s : Provider)
    (Htext : trim text <> EmptyString) (Hok : res_ok status = true)
    (Hms : ms <> []) :
  let s' := snd (sendMessage conversationId text files now
                   (HttpResponse status (Some (RObject (Some ms)))) reload s) in
  messages s' = drop_pending text (messages s) ++ ms /\ isSending s' = false.
Proof.
  assert (F : str_falsy (trim text) = false) by (apply String.eqb_neq; exact Htext).
  unfold sendMessage. rewrite F. cbn [andb].
  destruct ms as [|m ms]; [contradiction|].
  destruct files as [[|f fs]|]; run_send; rewrite Hok;
    cbn -[drop_pending trim str_or];
    rewrite drop_pending_placeholder by exact Htext; auto.
Qed.

Lemma sendMessage_success_replaces_placeholder_witness :
  trim "hello" <> EmptyString /\ res_ok 200 = true /\ [msg101; msg102] <> [] /\
  let s' := snd (sendMessage 5 "hello" None "2026-01-01T00:00:00Z"
                   (HttpResponse 200 (Some (RObject (Some [msg101; msg102]))))
                   no_reload empty_provider) in
  messages s' = drop_pending "hello" (messages empty_provider) ++ [msg101; msg102] /\
  isSending s' = false.
Proof.
  split; [discriminate|]. split; [reflexivity|]. split; [discriminate|].
  apply (sendMessage_success_replaces_placeholder 5 "hello" None
           "2026-01-01T00:00:00Z" 200 [msg101; msg102] no_reload empty_provider);
    [discriminate | reflexivity | discriminate].
Defined.

(** X: with non-blank text, a send that fails (the fetch rejects, the
    status is not 2xx, the body is not JSON, or it is [null]) removes the
    pending placeholders for this text and nothing else, and logs one
    error line; when the list held no placeholder before, it is restored
    exactly. *)
Theorem sendMessage_failure_restores_list (conversationId : Z) (text : string)
    (files : option (list File)) (now : string)
    (answer : FetchOutcome SendResponse) (reload : nat -> FetchOutcome (list Msg.t))
    (s : Provider)
    (Htext : trim text <> EmptyString)
    (Hfail : failing answer = true \/
             exists status, res_ok status = true /\
               (answer = HttpResponse status None \/
                answer = HttpResponse status (Some RNull))) :
  let s' := snd (sendMessage conversationId text files now answer reload s) in
  messages s' = drop_pending text (messages s) /\
  (exists e, errors s' = errors s ++ [e]) /\ isSending s' = false /\
  ((forall m, In m (messages s) -> Msg.id m <> -1) -> messages s' = messages s).
Proof.
  assert (F : str_falsy (trim text) = false) by (apply String.eqb_neq; exact Htext).
  cut (messages (snd (sendMessage conversationId text files now answer reload s)) =
         drop_pending text (messages s) /\
       (exists e, errors (snd (sendMessage conversationId text files now answer reload s))
                  = errors s ++ [e]) /\
       isSending (snd (sendMessage conversationId text files now answer reload s)) = false).
  { intros (H1 & H2 & H3). split; [exact H1|]. split; [exact H2|]. split; [exact H3|].
    intros Hn. rewrite H1. apply drop_pending_no_pending, Hn. }
  unfold sendMessage. rewrite F. cbn [andb].
  destruct Hfail as [Hf | (st & Hok & [-> | ->])].
  - destruct answer as [|st js]; cbn in Hf.
    + destruct files as [[|f fs]|]; run_send;
        rewrite drop_pending_placeholder by exact Htext; eauto.
    + apply negb_true_iff in Hf.
      destruct files as [[|f fs]|]; run_send; rewrite Hf;
        cbn -[drop_pending drop_pending_on_error trim str_or];
        rewrite drop_pending_on_error_same, drop_pending_placeholder by exact Htext;
        eauto.
  - destruct files as [[|f fs]|]; run_send; rewrite Hok;
      cbn -[drop_pending trim str_or];
      rewrite drop_pending_placeholder by exact Htext; eauto.
  - destruct files as [[|f fs]|]; run_send; rewrite Hok;
      cbn -[drop_pending trim str_or];
      rewrite drop_pending_placeholder by exact Htext; eauto.
Qed.

Lemma sendMessage_failure_restores_list_witness :
  trim "hello" <> EmptyString /\
  (failing (@HttpResponse SendResponse 500 None) = true \/
   exists status, res_ok status = true /\
     (@HttpResponse SendResponse 500 None = HttpResponse status None \/
      @HttpResponse SendResponse 500 None = HttpResponse status (Some RNull))) /\
  let s := set_messages [msg101] empty_provider in
  let s' := snd (sendMessage 5 "hello" None "2026-01-01T00:00:00Z"
                   (HttpResponse 500 None) no_reload s) in
  messages s' = drop_pending "hello" (messages s) /\
  (exists e, errors s' = errors s ++ [e]) /\ isSending s' = false /\
  ((forall m, In m (messages s) -> Msg.id m <> -1) -> messages s' = messages s).
Proof.
  split; [discriminate|]. split; [left; reflexivity|].
  apply (sendMessage_failure_restores_list 5 "hello" None "2026-01-01T00:00:00Z"
           (HttpResponse 500 None) no_reload (set_messages [msg101] empty_provider));
    [discriminate | left; reflexivity].
Defined.

(** X: with non-blank text, a 2xx response without a non-empty
    [messages] array makes the send wait 100 ms and reload the
    conversation: the list is then exactly what a [loadMessages] of the
    conversation yields, with the placeholder and any other local entry
    gone. *)
Theorem sendMessage_fallback_reloads (conversationId : Z) (text : string)
    (files : option (list File)) (now : string) (status : Z)
    (m : option (list Msg.t)) (reload : nat -> FetchOutcome (list Msg.t))
    (s : Provider)
    (Htext : trim text <> EmptyString) (Hok : res_ok status = true)
    (Hm : m = None \/ m = Some []) :
  let s' := snd (sendMessage conversationId text files now
                   (HttpResponse status (Some (RObject m))) reload s) in
  messages s' =
    messages (snd (loadMessages conversationId 3 300 reload empty_provider)) /\
  isSending s' = false.
Proof.
  assert (F : str_falsy (trim text) = false) by (apply String.eqb_neq; exact Htext).
  unfold sendMessage. rewrite F. cbn [andb].
  destruct Hm as [-> | ->];
    destruct files as [[|f fs]|]; run_send; rewrite Hok;
    cbn -[loadMessages drop_pending trim str_or];
    match goal with
    | |- context [loadMessages ?c ?r ?d ?a ?x] =>
        pose proof (loadMessages_messages c r d a x empty_provider) as HM;
        destruct (loadMessages_frame c r d a x) as (H1 & _);
        destruct (loadMessages c r d a x) as [lr ls];
        cbn in H1, HM |- *; subst lr;
        split; [apply HM; lia | reflexivity]
    end.
Qed.

Lemma sendMessage_fallback_reloads_witness :
  trim "hello" <> EmptyString /\ res_ok 200 = true /\
  (@None (list Msg.t) = None \/ @None (list Msg.t) = Some []) /\
  let s' := snd (sendMessage 5 "hello" None "2026-01-01T00:00:00Z"
                   (HttpResponse 200 (Some (RObject None)))
                   (two_conversations_backend 5) empty_provider) in
  messages s' =
    messages (snd (loadMessages 5 3 300 (two_conversations_backend 5) empty_provider)) /\
  isSending s' = false.
Proof.
  split; [discriminate|]. split; [reflexivity|]. split; [left; reflexivity|].
  apply (sendMessage_fallback_reloads 5 "hello" None "2026-01-01T00:00:00Z" 200 None
           (two_conversations_backend 5) empty_provider);
    [discriminate | reflexivity | left; reflexivity].
Defined.

(* ------------------------------------------------------------------ *)
(** ** [deleteConversation]: failures and the other branches *)

(** X: a DELETE that fails (rejected fetch or non-2xx status) leaves the
    conversations, the selection, the message list and the panel
    visibility as they were and logs one error line. *)
Theorem deleteConversation_failure_keeps_state (conversationId : Z)
    (answer : FetchOutcome unit) (s : Provider)
    (Hfail : failing answer = true) :
  let '(r, s') := deleteConversation conversationId answer s in
  r = Ok tt /\
  conversations s' = conversations s /\
  selectedConversationId s' = selectedConversationId s /\
  messages s' = messages s /\ showChatPanel s' = showChatPanel s /\
  requests s' = requests s ++ [DeleteConversation conversationId] /\
  exists e, errors s' = errors s ++ [e].
Proof.
  unfold deleteConversation, try_catch, try_catch_finally, fetch, bind, modify, ret,
    throw.
  destruct answer as [|st js]; cbn -[res_ok]; cbn in Hfail.
  - repeat split; eauto.
  - rewrite Hfail. cbn. repeat split; eauto.
Qed.

Lemma deleteConversation_failure_keeps_state_witness :
  failing (@HttpResponse unit 500 None) = true /\
  let s := set_selected (Some 7) empty_provider in
  let '(r, s') := deleteConversation 7 (HttpResponse 500 None) s in
  r = Ok tt /\
  conversations s' = conversations s /\
  selectedConversationId s' = selectedConversationId s /\
  messages s' = messages s /\ showChatPanel s' = showChatPanel s /\
  requests s' = requests s ++ [DeleteConversation 7] /\
  exists e, errors s' = errors s ++ [e].
Proof.
  split; [reflexivity|].
  apply (deleteConversation_failure_keeps_state 7 (HttpResponse 500 None)
           (set_selected (Some 7) empty_provider)).
  reflexivity.
Defined.

(** X: deleting a conversation other than the selected one keeps the
    selection, the message list and the panel visibility. *)
Theorem deleteConversation_other_keeps_selection (conversationId status : Z)
    (js : option unit) (s : Provider)
    (Hok : res_ok status = true)
    (Hother : selectedConversationId s <> Some conversationId) :
  let s' := snd (deleteConversation conversationId (HttpResponse status js) s) in
  selectedConversationId s' = selectedConversationId s /\
  messages s' = messages s /\ showChatPanel s' = showChatPanel s.
Proof.
  assert (E : option_Z_eqb (selectedConversationId s) (Some conversationId) = false).
  { destruct (selectedConversationId s) as [x|]; [|reflexivity].
    cbn. apply Z.eqb_neq. congruence. }
  unfold deleteConversation, try_catch, try_catch_finally, fetch, bind, modify, ret.
  cbn -[res_ok option_Z_eqb]. rewrite Hok. cbn -[option_Z_eqb]. rewrite E.
  cbn. auto.
Qed.

Lemma deleteConversation_other_keeps_selection_witness :
  res_ok 200 = true /\
  selectedConversationId (set_selected (Some 1) empty_provider) <> Some 2 /\
  let s' := snd (deleteConversation 2 (HttpResponse 200 None)
                   (set_selected (Some 1) empty_provider)) in
  selectedConversationId s' = selectedConversationId (set_selected (Some 1) empty_provider) /\
  messages s' = messages (set_selected (Some 1) empty_provider) /\
  showChatPanel s' = showChatPanel (set_selected (Some 1) empty_provider).
Proof.
  split; [reflexivity|]. split; [discriminate|].
  apply (deleteConversation_other_keeps_selection 2 200 None
           (set_selected (Some 1) empty_provider)); [reflexivity | discriminate].
Defined.

(** X: deleting the selected conversation when it is the only one
    clears the selection, hides the chat panel and empties the list; the
    selection effect then sends no request and keeps the list empty. *)
Theorem deleteConversation_last_hides_panel (conversationId status : Z)
    (js : option unit) (backend : Z -> nat -> FetchOutcome (list Msg.t))
    (s : Provider)
    (Hok : res_ok status = true)
    (Hsel : selectedConversationId s = Some conversationId)
    (Hlast : forall c, In c (conversations s) -> Conv.id c = conversationId) :
  let s' := snd (deleteConversation conversationId (HttpResponse status js) s) in
  selectedConversationId s' = None /\ showChatPanel s' = false /\
  conversations s' = [] /\ messages s' = [] /\
  selection_effect (Some conversationId) backend s' = (Ok tt, s').
Proof.
  assert (Hnil : filter (fun c => negb (Conv.id c =? conversationId))
                   (conversations s) = []).
  { induction (conversations s) as [|c r IH]; [reflexivity|].
    cbn. rewrite (Hlast c (or_introl eq_refl)), Z.eqb_refl. cbn.
    apply IH. intros c' Hc'. apply Hlast. now right. }
  unfold deleteConversation, try_catch, try_catch_finally, fetch, bind, modify, ret.
  cbn -[res_ok option_Z_eqb filter]. rewrite Hok, Hsel.
  cbn -[filter]. rewrite Z.eqb_refl, Hnil. cbn.
  repeat split.
Qed.

Lemma deleteConversation_last_hides_panel_witness :
  let s := set_selected (Some 7)
             (set_conversations [Conv.mk 7 1 "Conversation 1" "th" "t"] empty_provider) in
  res_ok 200 = true /\ selectedConversationId s = Some 7 /\
  (forall c, In c (conversations s) -> Conv.id c = 7) /\
  let s' := snd (deleteConversation 7 (HttpResponse 200 None) s) in
  selectedConversationId s' = None /\ showChatPanel s' = false /\
  conversations s' = [] /\ messages s' = [] /\
  selection_effect (Some 7) two_conversations_backend s' = (Ok tt, s').
Proof.
  intros s.
  assert (Hl : forall c, In c (conversations s) -> Conv.id c = 7).
  { intros c [<- | []]. reflexivity. }
  split; [reflexivity|]. split; [reflexivity|]. split; [exact Hl|].
  apply (deleteConversation_last_hides_panel 7 200 None two_conversations_backend s);
    [reflexivity | reflexivity | exact Hl].
Defined.

(* ------------------------------------------------------------------ *)
(** ** What the layout gives the chat panel after a stale load *)

Lemma load_attempt_messages_from cid retries attempt delay o s :
  let s' := snd (load_attempt cid retries attempt delay o s) in
  messages s' = messages s \/ messages s' = [] \/
  exists st l, o = HttpResponse st (Some l) /\ messages s' = l.
Proof.
  destruct o as [|st [js|]]; run_m;
    try destruct (res_ok st); destruct (Nat.ltb attempt (retries - 1));
    cbn; eauto 6.
Qed.

Lemma load_loop_messages_from cid retries delay answers fuel : forall a s,
  let s' := snd (load_loop fuel a cid retries delay answers s) in
  messages s' = messages s \/ messages s' = [] \/
  exists i st l, answers i = HttpResponse st (Some l) /\ messages s' = l.
Proof.
  induction fuel as [|f IH]; intros a s; cbn [load_loop]; [cbn; auto|].
  destruct (Nat.ltb a retries); [|cbn; auto].
  pose proof (load_attempt_messages_from cid retries a delay (answers a) s) as HA.
  unfold bind.
  destruct (load_attempt cid retries a delay (answers a) s) as [r1 t1].
  cbn [snd] in HA.
  destruct r1 as [c|e]; [|cbn; destruct HA as [H|[H|(st & l & E & H)]]; eauto 7].
  destruct c.
  - destruct (IH (S a) t1) as [H|[H|H]]; [|auto|auto].
    rewrite H. destruct HA as [H'|[H'|(st & l & E & H')]]; eauto 7.
  - cbn. destruct HA as [H|[H|(st & l & E & H)]]; eauto 7.
Qed.

(** X: the chat panel never shows a message a stale load brought in.
    When a load completes for a conversation that is no longer selected,
    and the backend only returns that conversation's messages, the list
    the layout passes to [ChatPanel] is empty. *)
Theorem stale_load_hidden_from_panel
    (backend : Z -> nat -> FetchOutcome (list Msg.t)) (ss : Session) (c : Z)
    (Hinflight : existsb (Z.eqb c) (inflight ss) = true)
    (Hstale : selectedConversationId (provider ss) <> Some c)
    (Hbackend : forall i st l, backend c i = HttpResponse st (Some l) ->
                forall m, In m l -> Msg.conversation_id m = c) :
  let s' := provider (session_step backend ss (LoadCompletes c)) in
  panel_messages (selectedConversationId s') (messages s') = [].
Proof.
  cbn zeta. unfold session_step. rewrite Hinflight. cbn [provider].
  set (s := provider ss) in *.
  destruct (loadMessages_frame c 3 300 (backend c) s) as (_ & _ & Hsel & _).
  rewrite Hsel.
  rewrite (loadMessages_messages c 3 300 (backend c) s (set_messages [] s))
    by lia.
  unfold loadMessages, bind at 1, modify at 1.
  destruct (load_loop_messages_from c 3 300 (backend c) 3 0
              (set_isLoading true (set_messages [] s)))
    as [H|[H|(i & st & l & E & H)]]; cbn in H |- *; rewrite H; [reflexivity|reflexivity|].
  specialize (Hbackend i st l E).
  unfold panel_messages. clear H E.
  induction l as [|m r IH]; [reflexivity|].
  cbn [filter]. rewrite (Hbackend m (or_introl eq_refl)).
  replace (option_Z_eqb (Some c) (selectedConversationId s)) with false.
  - apply IH. intros m' Hm'. apply Hbackend. now right.
  - destruct (selectedConversationId s) as [x|]; [|reflexivity].
    symmetry. cbn. apply Z.eqb_neq. congruence.
Qed.

Lemma stale_load_hidden_from_panel_witness :
  let ss := mkSession (set_selected (Some 2) empty_provider) [1; 2] in
  existsb (Z.eqb 1) (inflight ss) = true /\
  selectedConversationId (provider ss) <> Some 1 /\
  (forall i st l, two_conversations_backend 1 i = HttpResponse st (Some l) ->
   forall m, In m l -> Msg.conversation_id m = 1) /\
  let s' := provider (session_step two_conversations_backend ss (LoadCompletes 1)) in
  panel_messages (selectedConversationId s') (messages s') = [].
Proof.
  intros ss.
  assert (Hb : forall i st l, two_conversations_backend 1 i = HttpResponse st (Some l) ->
               forall m, In m l -> Msg.conversation_id m = 1).
  { intros i st l E m Hm. cbn in E. injection E as _ <-.
    destruct Hm as [<- | []]. reflexivity. }
  split; [reflexivity|]. split; [discriminate|]. split; [exact Hb|].
  apply (stale_load_hidden_from_panel two_conversations_backend ss 1);
    [reflexivity | discriminate | exact Hb].
Defined.

(* ------------------------------------------------------------------ *)
(** ** [handleSubmit] *)

Lemma submit_text_nonblank fmt input uploadedFiles :
  trim input <> EmptyString \/ uploadedFiles <> [] ->
  str_falsy (trim (submit_text fmt (trim input) uploadedFiles)) = false.
Proof.
  intros H. unfold str_falsy. apply String.eqb_neq.
  unfold submit_text. destruct uploadedFiles as [|u r].
  - cbn [List.length Nat.ltb Nat.leb]. rewrite trim_idem.
    destruct H as [H|H]; [exact H | contradiction].
  - cbn [List.length Nat.ltb Nat.leb]. unfold str_falsy.
    destruct (String.eqb (trim input) EmptyString) eqn:E.
    + apply trim_head_nonempty. reflexivity.
    + destruct (trim_shape input) as [T | (c & rest & T & W)].
      * rewrite T in E. discriminate.
      * rewrite T. cbn [append]. apply trim_head_nonempty, W.
Qed.

Lemma submit_text_cases formatFileSize input uploadedFiles :
  submit_text formatFileSize (trim input) uploadedFiles =
  match uploadedFiles with
  | [] => trim input
  | _ :: _ =>
      let fileList :=
        concat newline (map (file_line formatFileSize) uploadedFiles) in
      if String.eqb (trim input) EmptyString then
        ("Uploaded " ++ nat_to_string (List.length uploadedFiles)
         ++ " file(s):" ++ newline ++ fileList)%string
      else (trim input ++ newline ++ newline ++ fileList)%string
  end.
Proof. unfold submit_text, str_falsy. destruct uploadedFiles; reflexivity. Qed.

(** X: a submit with a conversation and something to send (non-blank
    text or at least one attached file) clears the input and the upload
    list, never rejects, and posts exactly one JSON message: the trimmed
    text when no file is attached; otherwise one [[File: name (size)]]
    line per file, after the trimmed text and a blank line, or, when the
    text is blank, after a header line [Uploaded N file(s):]. The files
    themselves are never sent. *)
Theorem handleSubmit_posts_listing (formatFileSize : Z -> string) (c : Conv.t)
    (input : string) (uploadedFiles : list Upload.t) (now : string)
    (answer : FetchOutcome SendResponse) (reload : nat -> FetchOutcome (list Msg.t))
    (s : Provider)
    (Hcontent : trim input <> EmptyString \/ uploadedFiles <> []) :
  let '(r, s') := handleSubmit formatFileSize (Some c) input uploadedFiles now
                    answer reload s in
  r = Ok (EmptyString, []) /\ isSending s' = false /\
  exists k, requests s' =
    requests s ++
    PostMessage (Conv.id c)
      (JsonBody
         match uploadedFiles with
         | [] => trim input
         | _ :: _ =>
             let fileList :=
               concat newline (map (file_line formatFileSize) uploadedFiles) in
             if String.eqb (trim input) EmptyString then
               ("Uploaded " ++ nat_to_string (List.length uploadedFiles)
                ++ " file(s):" ++ newline ++ fileList)%string
             else (trim input ++ newline ++ newline ++ fileList)%string
         end)
    :: repeat (GetMessages (Conv.id c)) k.
Proof.
  rewrite <- submit_text_cases.
  unfold handleSubmit.
  replace (str_falsy (trim input) && Nat.eqb (List.length uploadedFiles) 0) with false.
  2: { symmetry. apply andb_false_iff.
       destruct Hcontent as [H|H].
       - left. apply String.eqb_neq, H.
       - right. destruct uploadedFiles; [contradiction | reflexivity]. }
  pose proof (submit_text_nonblank formatFileSize input uploadedFiles Hcontent) as N.
  pose proof (sendMessage_outcome (Conv.id c)
                (submit_text formatFileSize (trim input) uploadedFiles) None now
                answer reload s) as O.
  rewrite N in O. specialize (O eq_refl).
  unfold bind, ret.
  destruct (sendMessage (Conv.id c) (submit_text formatFileSize (trim input) uploadedFiles)
              None now answer reload s) as [r s'].
  destruct O as (-> & O2 & O3). auto.
Qed.

Lemma handleSubmit_posts_listing_witness :
  let u := Upload.mk "1-0.5" cv_pdf None in
  (trim EmptyString <> EmptyString \/ [u] <> []) /\
  let '(r, s') := handleSubmit (fun _ => "1000 B"%string)
                    (Some (Conv.mk 5 1 "Conversation 1" "th" "t")) EmptyString [u]
                    "2026-01-01T00:00:00Z" (HttpResponse 200 (Some (RObject (Some [msg101]))))
                    no_reload empty_provider in
  r = Ok (EmptyString, []) /\ isSending s' = false /\
  exists k, requests s' =
    requests empty_provider ++
    PostMessage 5
      (JsonBody
         match [u] with
         | [] => trim EmptyString
         | _ :: _ =>
             let fileList :=
               concat newline (map (file_line (fun _ => "1000 B"%string)) [u]) in
             if String.eqb (trim EmptyString) EmptyString then
               ("Uploaded " ++ nat_to_string (List.length [u])
                ++ " file(s):" ++ newline ++ fileList)%string
             else (trim EmptyString ++ newline ++ newline ++ fileList)%string
         end)
    :: repeat (GetMessages 5) k.
Proof.
  intros u. split; [right; discriminate|].
  apply (handleSubmit_posts_listing (fun _ => "1000 B"%string)
           (Conv.mk 5 1 "Conversation 1" "th" "t") EmptyString [u]
           "2026-01-01T00:00:00Z" (HttpResponse 200 (Some (RObject (Some [msg101]))))
           no_reload empty_provider).
  right; discriminate.
Defined.

(** X: whatever the panel state and the backend answers, a submit only
    ever sends JSON posts and message reloads: no request of
    [handleSubmit] carries files. *)
Theorem handleSubmit_never_uploads (formatFileSize : Z -> string)
    (conversation : option Conv.t) (input : string) (uploadedFiles : list Upload.t)
    (now : string) (answer : FetchOutcome SendResponse)
    (reload : nat -> FetchOutcome (list Msg.t)) (s : Provider) :
  exists l,
    requests (snd (handleSubmit formatFileSize conversation input uploadedFiles now
                     answer reload s)) = requests s ++ l /\
    forall r, In r l ->
      (exists cid msg, r = PostMessage cid (JsonBody msg)) \/
      (exists cid, r = GetMessages cid).
Proof.
  unfold handleSubmit.
  destruct conversation as [c|].
  2: { exists []. split; [symmetry; apply app_nil_r | intros r []]. }
  destruct (str_falsy (trim input) && Nat.eqb (List.length uploadedFiles) 0).
  { exists []. split; [symmetry; apply app_nil_r | intros r []]. }
  set (mt := submit_text formatFileSize (trim input) uploadedFiles).
  unfold bind, ret.
  destruct (str_falsy (trim mt) && no_files None) eqn:N.
  - unfold sendMessage. rewrite N. cbn.
    exists []. split; [symmetry; apply app_nil_r | intros r []].
  - pose proof (sendMessage_outcome (Conv.id c) mt None now answer reload s N) as O.
    destruct (sendMessage (Conv.id c) mt None now answer reload s) as [r s'].
    destruct O as (-> & _ & k & Hk). cbn.
    eexists. split; [exact Hk|].
    intros r [<- | Hr]; [left; eauto|].
    right. exists (Conv.id c). apply repeat_spec in Hr. exact Hr.
Qed.
